(** * ai-policy-checker: a shallow embedding and its checked properties

    The Python sources embedded here are [schema.py], [policy_mapping.py],
    [ai_analyzer.py], [screen_shot.py] and [main.py].

    Conventions of the embedding.
    - A Python exception caught by [except Exception] is a value of [exn];
      [str_exn] is Python's [str(e)].  Interrupts that are not instances of
      [Exception] (KeyboardInterrupt, SystemExit) are outside the model.
    - Code that can raise returns a [result]; code that also mutates a
      local object or emits warnings runs in the monad [M S], whose state
      survives an exception, as a mutated Python object does.
    - Libraries the program calls (requests, html_to_markdown, pydantic's
      JSON decoder, the chat model client, Playwright, base64) are
      collaborators: operations of a type class, never axioms. *)

From Stdlib Require Import String Ascii List PeanoNat.
Import ListNotations.
Local Open Scope string_scope.
Set Warnings "-register-all".

(* ===================================================================== *)
(** ** Python runtime: exceptions, results, dicts, the effect monad      *)
(* ===================================================================== *)

Module Py.

(** The exception classes the sources raise themselves or provoke in the
    interpreter.  [Exception] also stands for every library error, carried
    by its message. *)
Inductive exn : Type :=
| Exception (msg : string)
| KeyError (key : string)
| IndexError (msg : string)
| AttributeError (msg : string).

Inductive result (A : Type) : Type :=
| Ok (a : A)
| Err (e : exn).
Arguments Ok {A} a.
Arguments Err {A} e.

(** Python values that are JSON documents: what a JSON decoder returns,
    and what the parts of a chat message hold. *)
Inductive json : Type :=
| JNull
| JBool (b : bool)
| JNumber (literal : string)
| JString (s : string)
| JArray (items : list json)
| JObject (members : list (string * json)).

(** Conversions of the interpreter that end up in messages. *)
Class Builtins := {
  (** [repr] of a [str], needed for [str(KeyError(k))] *)
  repr_str : string -> string;
  (** [str] of a dict or list value, as an f-string interpolates it *)
  str_value : json -> string
}.

Definition str_exn `{Builtins} (e : exn) : string :=
  match e with
  | Exception m => m
  | KeyError k => repr_str k
  | IndexError m => m
  | AttributeError m => m
  end.

(** A [dict] with [str] keys: bindings in insertion order, one per key. *)
Definition dict (V : Type) : Type := list (string * V).

Fixpoint dict_get {V} (d : dict V) (k : string) : option V :=
  match d with
  | [] => None
  | (k', v) :: d' => if String.eqb k k' then Some v else dict_get d' k
  end.

(** [d[k] = v]: overwrite in place, or append a new last binding. *)
Fixpoint dict_set {V} (k : string) (v : V) (d : dict V) : dict V :=
  match d with
  | [] => [(k, v)]
  | (k', v') :: d' =>
      if String.eqb k k' then (k', v) :: d' else (k', v') :: dict_set k v d'
  end.

(** [d[k]] as an expression: [KeyError] when the key is missing. *)
Definition getitem {V} (d : dict V) (k : string) : result V :=
  match dict_get d k with
  | Some v => Ok v
  | None => Err (KeyError k)
  end.

Definition dict_keys {V} (d : dict V) : list string := map fst d.

(** The dict obtained by assigning the pairs from left to right. *)
Definition dict_of_pairs {V} (kvs : list (string * V)) : dict V :=
  fold_left (fun d kv => dict_set (fst kv) (snd kv) d) kvs [].

(** Truthiness of the values the sources test with [if x:]. *)
Definition truthy_str (s : string) : bool := negb (String.eqb s "").
Definition truthy_opt_str (o : option string) : bool :=
  match o with Some s => truthy_str s | None => false end.

(** State and exceptions.  The state is what the code mutates. *)
Definition M (S A : Type) : Type := S -> result A * S.

Definition ret {S A} (a : A) : M S A := fun s => (Ok a, s).

Definition bind {S A B} (m : M S A) (k : A -> M S B) : M S B :=
  fun s => match m s with
           | (Ok a, s') => k a s'
           | (Err e, s') => (Err e, s')
           end.

Definition raise {S A} (e : exn) : M S A := fun s => (Err e, s).

Definition lift {S A} (r : result A) : M S A := fun s => (r, s).

Definition get {S} : M S S := fun s => (Ok s, s).

Definition modify {S} (f : S -> S) : M S unit := fun s => (Ok tt, f s).

(** [try: body / except Exception as e: handler e]. *)
Definition try_except {S A} (body : M S A) (handler : exn -> M S A) : M S A :=
  fun s => match body s with
           | (Ok a, s') => (Ok a, s')
           | (Err e, s') => handler e s'
           end.

(** [try: body / finally: return final]: a [return] in the [finally]
    clause replaces whatever the body produced, an exception in flight
    included. *)
Definition finally_return {S A B} (body : M S A) (final : M S B) : M S B :=
  fun s => final (snd (body s)).

(** [for x in xs: body x]. *)
Fixpoint for_ {S A} (xs : list A) (body : A -> M S unit) : M S unit :=
  match xs with
  | [] => ret tt
  | x :: xs' => bind (body x) (fun _ => for_ xs' body)
  end.

(** The same operators on [result] alone, for code without state. *)
Definition rbind {A B} (r : result A) (k : A -> result B) : result B :=
  match r with Ok a => k a | Err e => Err e end.

Definition rtry {A} (r : result A) (handler : exn -> result A) : result A :=
  match r with Ok a => Ok a | Err e => handler e end.

End Py.
Import Py.

Declare Scope py_scope.
Delimit Scope py_scope with py.
Notation "x <- c ;; k" := (bind c (fun x => k))
  (at level 61, c at next level, right associativity) : py_scope.
Notation "c ;; k" := (bind c (fun _ => k))
  (at level 61, right associativity) : py_scope.
Notation "x <~ c ;; k" := (rbind c (fun x => k))
  (at level 61, c at next level, right associativity) : py_scope.

(** The line feed of the Python literals. *)
Definition nl : string := String "010"%char "".

(* ===================================================================== *)
(** ** Methods of [str] that [main.py] calls                              *)
(* ===================================================================== *)

Module PyStr.

(** The characters [str.isspace] holds of.  The line feed is one of them. *)
Class CharClass := {
  isspace : ascii -> bool;
  isspace_line_feed : isspace "010"%char = true
}.

(** [s.split(c)] for a separator of one character: the pieces between the
    separators, at least one piece. *)
Fixpoint split_char (c : ascii) (s : string) : list string :=
  match s with
  | EmptyString => [EmptyString]
  | String d s' =>
      if Ascii.eqb d c then EmptyString :: split_char c s'
      else match split_char c s' with
           | piece :: pieces => String d piece :: pieces
           | [] => [String d EmptyString]
           end
  end.

Section Strip.
Context `{CharClass}.

(** [s.lstrip()]. *)
Fixpoint lstrip (s : string) : string :=
  match s with
  | EmptyString => EmptyString
  | String c s' => if isspace c then lstrip s' else s
  end.

(** [s.rstrip()]. *)
Fixpoint rstrip (s : string) : string :=
  match s with
  | EmptyString => EmptyString
  | String c s' =>
      match rstrip s' with
      | EmptyString => if isspace c then EmptyString else String c EmptyString
      | kept => String c kept
      end
  end.

(** [s.strip()]. *)
Definition strip (s : string) : string := rstrip (lstrip s).

(** Every character of [s] is whitespace ([s] may be empty). *)
Fixpoint all_space (s : string) : bool :=
  match s with
  | EmptyString => true
  | String c s' => isspace c && all_space s'
  end.

End Strip.

(** [c in s]. *)
Fixpoint contains_char (c : ascii) (s : string) : bool :=
  match s with
  | EmptyString => false
  | String d s' => Ascii.eqb d c || contains_char c s'
  end.

End PyStr.

(* ===================================================================== *)
(** ** schema.py                                                          *)
(* ===================================================================== *)

Module Schema.

Definition POLICY_ITEMS : list string :=
  [ "Counterfeit goods";
    "Dangerous products or services";
    "Enabling dishonest behavior";
    "Inappropriate content";
    "Abusing the ad network";
    "Data collection and use";
    "Misrepresentation";
    "Ad protections for children and teens";
    "Alcohol";
    "Gambling and games";
    "Healthcare and medicines";
    "Political content";
    "Financial products and services";
    "Sexual content";
    "Legal requirements" ].

Definition MODEL_OPTIONS : list string := [ "gemini-3-pro-preview" ].

End Schema.

(* ===================================================================== *)
(** ** policy_mapping.py                                                  *)
(* ===================================================================== *)

Module PolicyMapping.

Definition mapping_dict : dict string :=
  [ ("Counterfeit goods", "https://support.google.com/adspolicy/answer/176017?sjid=16476839465041943591-NC");
    ("Dangerous products or services", "https://support.google.com/adspolicy/answer/6014299?sjid=16476839465041943591-NC");
    ("Enabling dishonest behavior", "https://support.google.com/adspolicy/answer/6016086?sjid=16476839465041943591-NC");
    ("Inappropriate content", "https://support.google.com/adspolicy/answer/6015406?sjid=16476839465041943591-NC");
    ("Abusing the ad network", "https://support.google.com/adspolicy/answer/6020954?sjid=16476839465041943591-NC");
    ("Data collection and use", "https://support.google.com/adspolicy/answer/6020956?sjid=16476839465041943591-NC");
    ("Misrepresentation", "https://support.google.com/adspolicy/answer/6020955?sjid=16476839465041943591-NC");
    ("Ad protections for children and teens", "https://support.google.com/adspolicy/answer/6023699?sjid=16476839465041943591-NC");
    ("Alcohol", "https://support.google.com/adspolicy/answer/6012382?sjid=16476839465041943591-NC");
    ("Gambling and games", "https://support.google.com/adspolicy/answer/6018017?sjid=16476839465041943591-NC");
    ("Healthcare and medicines", "https://support.google.com/adspolicy/answer/176031?sjid=16476839465041943591-NC");
    ("Political content", "https://support.google.com/adspolicy/answer/6014595?sjid=16476839465041943591-NC");
    ("Financial products and services", "https://support.google.com/adspolicy/answer/2464998?sjid=16476839465041943591-NC");
    ("Sexual content", "https://support.google.com/adspolicy/answer/6023699?sjid=4441517453548231022-NC");
    ("Legal requirements", "https://support.google.com/adspolicy/answer/6023676?sjid=4441517453548231022-NC") ].

(** [s[n:]]. *)
Fixpoint drop (n : nat) (s : string) : string :=
  match n, s with
  | O, _ => s
  | S n', String _ s' => drop n' s'
  | S _, EmptyString => EmptyString
  end.

(** The text before and after the first occurrence of [sep] in [s]:
    [s.split(sep, 1)] when that list has two elements. *)
Fixpoint split_once (sep s : string) : option (string * string) :=
  if String.prefix sep s then Some ("", drop (String.length sep) s)
  else match s with
       | EmptyString => None
       | String c s' =>
           match split_once sep s' with
           | Some (before, after) => Some (String c before, after)
           | None => None
           end
       end.

(** [s.split(sep, 1)[1]]. *)
Definition split1_item1 (sep s : string) : result string :=
  match split_once sep s with
  | Some (_, after) => Ok after
  | None => Err (IndexError "list index out of range")
  end.

(** [s.split(sep)[0]]. *)
Definition split_item0 (sep s : string) : string :=
  match split_once sep s with
  | Some (before, _) => before
  | None => s
  end.

Definition extract_necessary_text (text : string) : result string :=
  (text <~ split1_item1 ("#### On this page" ++ nl ++ nl) text ;;
   text <~ split1_item1 (nl ++ nl ++ "---" ++ nl ++ nl ++ nl) text ;;
   Ok (split_item0 "Need help?" text))%py.

(** The three literals of [extract_necessary_text], named. *)
Definition contents_marker : string := "#### On this page" ++ nl ++ nl.
Definition rule_marker : string := nl ++ nl ++ "---" ++ nl ++ nl ++ nl.
Definition help_marker : string := "Need help?".

(** The two libraries behind the policy text. *)
Class PolicySource := {
  (** [requests.get(url, timeout=10).text] *)
  requests_get_text : string -> result string;
  (** [convert_to_markdown(html)] *)
  convert_to_markdown : string -> result string
}.

Section GetPolicyMarkdown.
Context `{Builtins} `{PolicySource}.

(** The body of the [for] loop; [output] is the state. *)
Definition gather (policy : string) : M (dict string) unit :=
  (url <- lift (getitem mapping_dict policy) ;;
   html <- lift (requests_get_text url) ;;
   markdown <- lift (convert_to_markdown html) ;;
   text <- lift (extract_necessary_text markdown) ;;
   modify (dict_set policy text))%py.

Definition get_policy_markdown (policies : list string) : result (dict string) :=
  fst (finally_return
         (try_except
            (for_ policies gather)
            (fun e => raise (Exception ("Error getting policy markdown: " ++ str_exn e))))
         get
         []).

(** What one iteration stores for [policy], as a value. *)
Definition describe (policy : string) : result string :=
  (url <~ getitem mapping_dict policy ;;
   html <~ requests_get_text url ;;
   markdown <~ convert_to_markdown html ;;
   extract_necessary_text markdown)%py.

End GetPolicyMarkdown.

End PolicyMapping.

(* ===================================================================== *)
(** ** ai_analyzer.py                                                     *)
(* ===================================================================== *)

Module AiAnalyzer.
Import Schema PolicyMapping.

(** The annotation of a field of the generated class. *)
Inductive annotation : Type :=
| Literal (values : list string)
| Str.

(** The class [create_model] returns: its name and its fields in the order
    of declaration.  The [Field(description=..., example=...)] texts reach
    the schema document only, which [model_json_schema] stands for. *)
Record model_class : Type := {
  class_name : string;
  model_fields : list (string * annotation)
}.

(** [create_model] is taken to succeed.  Pydantic refuses a [Literal] of no
    values; [main] never selects none, and the properties below that are
    about the contract are stated for a non-empty selection. *)
Definition create_policy_violation_analysis_model
    (policy_literals : list string) : model_class :=
  {| class_name := "PolicyViolationAnalysis";
     model_fields :=
       [ ("violated_policy", Literal policy_literals);
         ("reason", Str);
         ("location_of_violation", Str);
         ("xpath", Str) ] |}.

(** The default of the parameter: [policy_literals = POLICY_ITEMS]. *)
Definition default_policy_violation_analysis_model : model_class :=
  create_policy_violation_analysis_model POLICY_ITEMS.

(** An instance of the class: the validated value of each field. *)
Definition instance : Type := dict string.

(** [obj.name]. *)
Definition getattr (obj : instance) (name : string) : result string :=
  match dict_get obj name with
  | Some v => Ok v
  | None =>
      Err (AttributeError
             ("'PolicyViolationAnalysis' object has no attribute '" ++ name ++ "'"))
  end.

(** [getattr(obj, name, default)]. *)
Definition getattr_default {A} (inj : string -> A) (obj : instance)
    (name : string) (default : A) : A :=
  match dict_get obj name with
  | Some v => inj v
  | None => default
  end.

(** The findings a [ValidationError] lists, one per offending place. *)
Inductive line_error : Type :=
| json_invalid (detail : string)
| json_type (input : json)
| model_type (input : json)
| missing (field : string)
| string_type (field : string) (input : json)
| literal_error (field : string) (input : json) (expected : list string).

Class Pydantic := {
  (** the JSON decoder: a document, or the description of the syntax error *)
  from_json : string -> sum string json;
  (** [str] of the [ValidationError] raised for a class *)
  ValidationError_str : string -> list line_error -> string;
  (** [cls.model_json_schema()] *)
  model_json_schema : model_class -> json
}.

(** Membership in a [Literal[...]] of strings. *)
Definition literal_mem (s : string) (values : list string) : bool :=
  existsb (String.eqb s) values.

(** One field of a JSON object against its annotation (JSON input: only a
    JSON string is a [str], and a [Literal] of strings holds only the
    strings it lists). *)
Definition validate_field (a : annotation) (name : string)
    (members : dict json) : sum line_error string :=
  match dict_get members name with
  | None => inl (missing name)
  | Some (JString s) =>
      match a with
      | Str => inr s
      | Literal values =>
          if literal_mem s values then inr s
          else inl (literal_error name (JString s) values)
      end
  | Some v =>
      match a with
      | Str => inl (string_type name v)
      | Literal values => inl (literal_error name v values)
      end
  end.

(** Every field is validated; the findings of all of them are collected.
    Members of the object that are no field of the class are ignored. *)
Fixpoint validate_fields (fields : list (string * annotation))
    (members : dict json) : list line_error * instance :=
  match fields with
  | [] => ([], [])
  | (name, a) :: rest =>
      let (errors, values) := validate_fields rest members in
      match validate_field a name members with
      | inl e => (e :: errors, values)
      | inr v => (errors, (name, v) :: values)
      end
  end.

Section Validation.
Context `{Pydantic}.

Definition ValidationError (cls : model_class) (errors : list line_error) : exn :=
  Exception (ValidationError_str (class_name cls) errors).

Definition model_validate (cls : model_class) (data : json) : result instance :=
  match data with
  | JObject members =>
      match validate_fields (model_fields cls) members with
      | ([], values) => Ok values
      | (errors, _) => Err (ValidationError cls errors)
      end
  | _ => Err (ValidationError cls [model_type data])
  end.

(** [cls.model_validate_json(data)]; [data] is the Python value passed. *)
Definition model_validate_json (cls : model_class) (data : json) : result instance :=
  match data with
  | JString text =>
      match from_json text with
      | inl detail => Err (ValidationError cls [json_invalid detail])
      | inr document => model_validate cls document
      end
  | _ => Err (ValidationError cls [json_type data])
  end.

End Validation.

(** The content of the message a chat model returns: a string, or a list
    of parts that are strings or dicts. *)
Inductive part : Type :=
| PartStr (s : string)
| PartDict (d : dict json).

Inductive content : Type :=
| ContentStr (s : string)
| ContentList (parts : list part).

Fixpoint last_item {A} (l : list A) : option A :=
  match l with
  | [] => None
  | [x] => Some x
  | _ :: l' => last_item l'
  end.

(** [result.content[-1].get("text", "")]. *)
Definition output_text_of (c : content) : result json :=
  match c with
  | ContentStr EmptyString => Err (IndexError "string index out of range")
  | ContentStr _ => Err (AttributeError "'str' object has no attribute 'get'")
  | ContentList parts =>
      match last_item parts with
      | None => Err (IndexError "list index out of range")
      | Some (PartStr _) => Err (AttributeError "'str' object has no attribute 'get'")
      | Some (PartDict d) =>
          match dict_get d "text" with
          | Some v => Ok v
          | None => Ok (JString "")
          end
      end
  end.

Inductive tool : Type :=
| web_search_preview
| url_context.

(** The keyword arguments of [ChatGoogleGenerativeAI(...)]. *)
Record chat_args : Type := {
  model : string;
  api_key_arg : string;
  response_schema : json;
  response_mime_type : string;
  thinking_budget : nat
}.

Class ChatModel := {
  (** constructing the client, [bind_tools(tools)] and
      [invoke([SystemMessage(...), HumanMessage(...)])]: the content of the
      answer, or the exception any of the three raised *)
  invoke : chat_args -> list tool -> string -> string -> result content
}.

Definition policy_prompt_of (policy_markdown : dict string) : string :=
  fold_left
    (fun policy_prompt item =>
       policy_prompt ++ "
            <policy_name>" ++ fst item ++ "</policy_name>
            <policy_description>" ++ snd item ++ "</policy_description>
            ")
    policy_markdown
    "<policies_description>"
  ++ "</policies_description>".

(** What one turn of the loop of [policy_prompt_of] appends, named. *)
Definition descriptions_block (policy markdown : string) : string :=
  "
            <policy_name>" ++ policy ++ "</policy_name>
            <policy_description>" ++ markdown ++ "</policy_description>
            ".

Section Analyze.
Context `{Builtins} `{PolicySource} `{Pydantic} `{ChatModel}.

Definition system_prompt_of (response_format : model_class)
    (policy_prompt : string) : string :=
  "
        You are an expert content policy analyzer. Analyze the provided website content
        passed by url from user to determine if it violates any of the policies.
        Consider both the text content and any visual elements that might be visible
        passed by url from user.
        Be thorough in your analysis and provide specific reasons for your findings.
        Provide your answer based only on the contents of the website from the url.

        Always return output in the following format:
        <response_format>
        " ++ str_value (model_json_schema response_format) ++ "
        </response_format>

        " ++ policy_prompt ++ "
        ".

Definition user_prompt_of (url : string) : string :=
  "
        Analyze the following website:
        URL: " ++ url ++ "
        Please analyze this website and find out where it violates any of the policies.
        Recommended approach:
        1. Think carefully what the website is about and go through the page content.
        2. Find out the policy that is violated from the website content.
        3. Return 'violated_policy' and 'reason' fields in the json object format.
        ".

Definition tools_of (model_name : string) : list tool :=
  (if String.prefix "openai:" model_name then [web_search_preview] else [])
  ++ (if String.prefix "gemini" model_name then [url_context] else []).

(** The body of the outer [try] up to the call of the model: the content
    of the answer to the one request [analyze_with_ai] sends. *)
Definition invoke_model (url : string) (selected_policies : list string)
    (api_key model_name : string) : result content :=
  (let response_format := create_policy_violation_analysis_model selected_policies in
   policy_markdown <~ get_policy_markdown selected_policies ;;
   let policy_prompt := policy_prompt_of policy_markdown in
   let system_prompt := system_prompt_of response_format policy_prompt in
   let user_prompt := user_prompt_of url in
   let tools := tools_of model_name in
   invoke
     {| model := model_name;
        api_key_arg := api_key;
        response_schema := model_json_schema response_format;
        response_mime_type := "application/json";
        thinking_budget := 1024 |}
     tools system_prompt user_prompt)%py.

Definition analyze_with_ai (url : string) (selected_policies : list string)
    (api_key model_name : string) : result instance :=
  rtry
    (let response_format := create_policy_violation_analysis_model selected_policies in
     result <~ invoke_model url selected_policies api_key model_name ;;
     output_text <~ output_text_of result ;;
     rtry (model_validate_json response_format output_text)
          (fun e => Err (Exception ("Error parsing response: " ++ str_exn e))))%py
    (fun e => Err (Exception ("AI analysis error: " ++ str_exn e))).

(** The ways a step of [analyze_with_ai] can fail, each with the exception
    that is its cause: the request to the model raises; the answer has no
    last part to take the text from; the text is no JSON; the document
    does not validate against the contract; the document names a policy
    outside the selected ones. *)
Inductive analysis_fault (url : string) (selected_policies : list string)
    (api_key model_name : string) : exn -> Prop :=
| transport_error (e : exn) :
    invoke_model url selected_policies api_key model_name = Err e ->
    analysis_fault url selected_policies api_key model_name e
| no_final_text (c : content) (e : exn) :
    invoke_model url selected_policies api_key model_name = Ok c ->
    output_text_of c = Err e ->
    analysis_fault url selected_policies api_key model_name e
| not_json (c : content) (text detail : string) :
    invoke_model url selected_policies api_key model_name = Ok c ->
    output_text_of c = Ok (JString text) ->
    from_json text = inl detail ->
    analysis_fault url selected_policies api_key model_name
      (ValidationError (create_policy_violation_analysis_model selected_policies)
         [json_invalid detail])
| schema_violation (c : content) (text : string) (document : json) (e : exn) :
    invoke_model url selected_policies api_key model_name = Ok c ->
    output_text_of c = Ok (JString text) ->
    from_json text = inr document ->
    model_validate (create_policy_violation_analysis_model selected_policies) document
      = Err e ->
    analysis_fault url selected_policies api_key model_name e
| unlisted_policy (c : content) (text : string) (members : dict json) (value : json) :
    invoke_model url selected_policies api_key model_name = Ok c ->
    output_text_of c = Ok (JString text) ->
    from_json text = inr (JObject members) ->
    dict_get members "violated_policy" = Some value ->
    (forall s, value = JString s -> ~ In s selected_policies) ->
    analysis_fault url selected_policies api_key model_name
      (let cls := create_policy_violation_analysis_model selected_policies in
       ValidationError cls (fst (validate_fields (model_fields cls) members))).

End Analyze.

End AiAnalyzer.

(* ===================================================================== *)
(** ** screen_shot.py                                                     *)
(* ===================================================================== *)

Module ScreenShot.

Definition bytes : Type := list Byte.byte.

(** [if b:] for [b : bytes | None]. *)
Definition truthy_opt_bytes (o : option bytes) : bool :=
  match o with
  | Some (_ :: _) => true
  | _ => false
  end.

(** The warnings emitted so far, oldest first. *)
Definition warnings : Type := list string.

(** [warnings.warn(msg, stacklevel=2)]. *)
Definition warn (msg : string) : M warnings unit :=
  modify (fun emitted => (emitted ++ [msg])%list).

(** Playwright, for one browsing session. *)
Class Playwright := {
  Page : Type;
  Region : Type;
  (** [async_playwright()], [chromium.launch(headless=True)], [new_page()]
      and [goto(url, wait_until="networkidle", timeout=30000)] *)
  open_page : string -> result Page;
  (** the regions a selector matches, in document order; raises on a
      selector that is malformed *)
  query : Page -> string -> result (list Region);
  (** the image of one region *)
  region_screenshot : Page -> Region -> result bytes;
  (** [page.screenshot(full_page=True)] *)
  page_screenshot : Page -> result bytes;
  (** [browser.close()] *)
  browser_close : Page -> result unit;
  (** what an action on a locator raises when nothing matches it *)
  no_match : exn
}.

(** The interpreter's platform and the standard library's base64. *)
Class Host := {
  sys_platform : string;
  (** [base64.b64encode(b).decode("utf-8")] *)
  b64encode : bytes -> string
}.

Section Capture.
Context `{Builtins} `{Playwright} `{Host}.

(** [page.locator(selector).first.count()]. *)
Definition first_count (page : Page) (selector : string) : result nat :=
  (regions <~ query page selector ;;
   Ok (List.length (firstn 1 regions)))%py.

(** [page.locator(selector).first.screenshot()]. *)
Definition first_screenshot (page : Page) (selector : string) : result bytes :=
  (regions <~ query page selector ;;
   match regions with
   | region :: _ => region_screenshot page region
   | [] => Err no_match
   end)%py.

(** The texts of the two warnings. *)
Definition anchor_warning (x : string) (e : exn) : string :=
  "XPath '" ++ x ++ "' is invalid or element not found. Taking full page screenshot: "
  ++ str_exn e.

Definition capture_warning (url : string) (e : exn) : string :=
  "Screenshot error for " ++ url ++ ": " ++ str_exn e.

Definition take_xpath_screenshot (url : string) (xpath : option string)
    : M warnings (option bytes) :=
  try_except
    (page <- lift (open_page url) ;;
     screenshot_bytes <-
       match xpath with
       | Some x =>
           if truthy_str x then
             try_except
               (count <- lift (first_count page ("xpath=" ++ x)) ;;
                if Nat.ltb 0 count then lift (first_screenshot page ("xpath=" ++ x))
                else lift (page_screenshot page))
               (fun e =>
                  warn (anchor_warning x e) ;;
                  lift (page_screenshot page))
           else lift (page_screenshot page)
       | None => lift (page_screenshot page)
       end ;;
     lift (browser_close page) ;;
     ret (Some screenshot_bytes))%py
    (fun e =>
       warn (capture_warning url e) ;;
       ret None)%py.

(** Both platform branches run the coroutine to completion and encode its
    result the same way; the event-loop set-up and tear-down of the
    [win32] branch has no part in the value. *)
Definition take_screenshot (url : string) (xpath : option string)
    : M warnings (option string) :=
  (if String.eqb sys_platform "win32" then
     screenshot_bytes <- take_xpath_screenshot url xpath ;;
     if truthy_opt_bytes screenshot_bytes
     then ret (option_map b64encode screenshot_bytes)
     else ret None
   else
     screenshot_bytes <- take_xpath_screenshot url xpath ;;
     if truthy_opt_bytes screenshot_bytes
     then ret (option_map b64encode screenshot_bytes)
     else ret None)%py.

(** How the paths of [take_xpath_screenshot] end once an image [b] was
    taken, and once the full page is to be taken: names for stating what
    the function does, not part of the source. *)
Definition release (page : Page) (url : string) (b : bytes) (emitted : warnings)
    : result (option bytes) * warnings :=
  match browser_close page with
  | Ok _ => (Ok (Some b), emitted)
  | Err e => (Ok None, (emitted ++ [capture_warning url e])%list)
  end.

Definition full_page (page : Page) (url : string) (emitted : warnings)
    : result (option bytes) * warnings :=
  match page_screenshot page with
  | Ok b => release page url b emitted
  | Err e => (Ok None, (emitted ++ [capture_warning url e])%list)
  end.

End Capture.

End ScreenShot.

(* ===================================================================== *)
(** ** main.py                                                            *)
(* ===================================================================== *)

Module Main.
Import AiAnalyzer ScreenShot.

(** The dict [process_url] returns: its keys are fixed, so it is a record. *)
Record page_record : Type := {
  url_ : string;
  violated_policy : string;
  reason : string;
  location_of_violation : string;
  screenshot_base64 : option string;
  xpath : option string;
  error : option string
}.

Definition set_violated_policy (v : string) (r : page_record) : page_record :=
  {| url_ := url_ r; violated_policy := v; reason := reason r;
     location_of_violation := location_of_violation r;
     screenshot_base64 := screenshot_base64 r; xpath := xpath r; error := error r |}.

Definition set_reason (v : string) (r : page_record) : page_record :=
  {| url_ := url_ r; violated_policy := violated_policy r; reason := v;
     location_of_violation := location_of_violation r;
     screenshot_base64 := screenshot_base64 r; xpath := xpath r; error := error r |}.

Definition set_location_of_violation (v : string) (r : page_record) : page_record :=
  {| url_ := url_ r; violated_policy := violated_policy r; reason := reason r;
     location_of_violation := v;
     screenshot_base64 := screenshot_base64 r; xpath := xpath r; error := error r |}.

Definition set_screenshot_base64 (v : option string) (r : page_record) : page_record :=
  {| url_ := url_ r; violated_policy := violated_policy r; reason := reason r;
     location_of_violation := location_of_violation r;
     screenshot_base64 := v; xpath := xpath r; error := error r |}.

Definition set_xpath (v : option string) (r : page_record) : page_record :=
  {| url_ := url_ r; violated_policy := violated_policy r; reason := reason r;
     location_of_violation := location_of_violation r;
     screenshot_base64 := screenshot_base64 r; xpath := v; error := error r |}.

Definition set_error (v : option string) (r : page_record) : page_record :=
  {| url_ := url_ r; violated_policy := violated_policy r; reason := reason r;
     location_of_violation := location_of_violation r;
     screenshot_base64 := screenshot_base64 r; xpath := xpath r; error := v |}.

(** What [process_url] can change: its local [result] and the warnings. *)
Definition frame : Type := (page_record * warnings)%type.

(** [result[key] = v]. *)
Definition assign (f : page_record -> page_record) : M frame unit :=
  modify (fun s => (f (fst s), snd s)).

(** [result[key]]. *)
Definition read {A} (f : page_record -> A) : M frame A :=
  fun s => (Ok (f (fst s)), s).

(** A computation that only emits warnings, run inside [process_url]. *)
Definition emitting {A} (m : M warnings A) : M frame A :=
  fun s => let (r, w) := m (snd s) in (r, (fst s, w)).

Section Orchestration.
Context `{Builtins} `{PolicyMapping.PolicySource} `{Pydantic} `{ChatModel}
        `{Playwright} `{Host}.

Definition process_url (url : string) (selected_policies : list string)
    (api_key model_name : string) : M warnings page_record :=
  fun emitted =>
    let result :=
      {| url_ := url;
         violated_policy := "Processing...";
         reason := "";
         location_of_violation := "";
         screenshot_base64 := None;
         xpath := None;
         error := None |} in
    let body : M frame unit :=
      try_except
        (analysis <- lift (analyze_with_ai url selected_policies api_key model_name) ;;
         v <- lift (getattr analysis "violated_policy") ;;
         assign (set_violated_policy v) ;;
         v <- lift (getattr analysis "reason") ;;
         assign (set_reason v) ;;
         assign (set_location_of_violation
                   (getattr_default (fun s => s) analysis "location_of_violation" "")) ;;
         assign (set_xpath (getattr_default Some analysis "xpath" None)) ;;
         anchor <- read xpath ;;
         screenshot <- emitting (take_screenshot url anchor) ;;
         if truthy_opt_str screenshot
         then assign (set_screenshot_base64 screenshot)
         else assign (set_error (Some "Failed to take screenshot")))%py
        (fun e =>
           assign (set_error (Some (str_exn e))) ;;
           assign (set_violated_policy "Error") ;;
           assign (set_reason ("Processing error: " ++ str_exn e)))%py in
    match body (result, emitted) with
    | (Ok _, (result', emitted')) => (Ok result', emitted')
    | (Err e, (_, emitted')) => (Err e, emitted')
    end.

(** The record of a URL whose processing raised [e] before any field of
    the analysis was stored: a name for stating what [process_url] does. *)
Definition failed_record (url : string) (e : exn) : page_record :=
  {| url_ := url;
     violated_policy := "Error";
     reason := "Processing error: " ++ str_exn e;
     location_of_violation := "";
     screenshot_base64 := None;
     xpath := None;
     error := Some (str_exn e) |}.

(** The loop of [main] over the submitted URLs; the state is
    [st.session_state.results] and the warnings.  The calls that only draw
    the progress display are left out. *)
Definition append_result (url : string) (selected_policies : list string)
    (api_key model_name : string) : M (list page_record * warnings) unit :=
  fun s =>
    match process_url url selected_policies api_key model_name (snd s) with
    | (Ok result, emitted) => (Ok tt, ((fst s ++ [result])%list, emitted))
    | (Err e, emitted) => (Err e, (fst s, emitted))
    end.

Definition main_loop (urls : list string) (selected_policies : list string)
    (api_key model_name : string) : M (list page_record * warnings) unit :=
  (modify (fun s => ([], snd s)) ;;
   for_ urls (fun url => append_result url selected_policies api_key model_name))%py.

End Orchestration.

(** The sidebar loop of [main]: [checkbox policy] is what
    [st.checkbox(policy, ...)] returns for that policy. *)
Definition select_policies (checkbox : string -> bool) : list string :=
  fold_left
    (fun selected_policies policy =>
       if checkbox policy then (selected_policies ++ [policy])%list
       else selected_policies)
    Schema.POLICY_ITEMS [].

(** What the block under [if analyze_btn:] ends in: an [st.error] message
    and [return], or the URLs stored in the session state before the
    rerun that starts the processing. *)
Inductive submission : Type :=
| Rejected (message : string)
| Accepted (urls : list string).

Section Submission.
Context `{PyStr.CharClass}.

(** [[url.strip() for url in url_input.split("\n") if url.strip()]]. *)
Definition parse_urls (url_input : string) : list string :=
  map PyStr.strip
      (filter (fun url => truthy_str (PyStr.strip url))
              (PyStr.split_char "010"%char url_input)).

Definition check_submission (api_key : string) (selected_policies : list string)
    (url_input : string) : submission :=
  if negb (truthy_str api_key) then Rejected "Please enter an API key"
  else match selected_policies with
       | [] => Rejected "Please select at least one policy to check"
       | _ :: _ =>
           if negb (truthy_str (PyStr.strip url_input))
           then Rejected "Please enter at least one URL"
           else match parse_urls url_input with
                | [] => Rejected "No valid URLs found"
                | urls => Accepted urls
                end
       end.

End Submission.

End Main.

(* ===================================================================== *)
(** ** A concrete world, to run the program on                            *)
(* ===================================================================== *)

Module Scenario.
Import Schema PolicyMapping AiAnalyzer ScreenShot Main.

Definition dq : string := String "034"%char "".
Definition quoted (s : string) : string := dq ++ s ++ dq.

Definition builtins : Builtins :=
  {| repr_str := fun s => "'" ++ s ++ "'";
     str_value := fun _ => "{'title': 'PolicyViolationAnalysis', 'type': 'object'}" |}.

(** Only the page of the Alcohol policy can be fetched. *)
Definition alcohol_url : string :=
  "https://support.google.com/adspolicy/answer/6012382?sjid=16476839465041943591-NC".

Definition alcohol_page : string :=
  "# Alcohol" ++ nl ++ "#### On this page" ++ nl ++ nl
  ++ "* Overview" ++ nl ++ nl ++ "---" ++ nl ++ nl ++ nl
  ++ "Ads for alcohol are restricted." ++ nl ++ "Need help? Contact us.".

Definition policy_source : PolicySource :=
  {| requests_get_text := fun url =>
       if String.eqb url alcohol_url then Ok alcohol_page
       else Err (Exception "HTTPSConnectionPool: Read timed out.");
     convert_to_markdown := fun html => Ok html |}.

(** Three answers a model can give. *)
Definition member (k v : string) : string := quoted k ++ ": " ++ quoted v.

Definition answer_text (label : string) : string :=
  "{" ++ member "violated_policy" label ++ ", "
      ++ member "reason" "The page sells beer to minors. This is restricted." ++ ", "
      ++ member "location_of_violation" "top banner" ++ ", "
      ++ member "xpath" "/html/body/div[1]" ++ "}".

Definition answer_doc (label : string) : json :=
  JObject [ ("violated_policy", JString label);
            ("reason", JString "The page sells beer to minors. This is restricted.");
            ("location_of_violation", JString "top banner");
            ("xpath", JString "/html/body/div[1]") ].

Definition pydantic : Pydantic :=
  {| from_json := fun text =>
       if String.eqb text (answer_text "Alcohol") then inr (answer_doc "Alcohol")
       else if String.eqb text (answer_text "Gambling and games")
            then inr (answer_doc "Gambling and games")
       else inl "expected value at line 1 column 1";
     ValidationError_str := fun name errors =>
       "validation error for " ++ name
       ++ match errors with
          | json_invalid detail :: _ => ": Invalid JSON: " ++ detail
          | literal_error field _ _ :: _ => ": " ++ field ++ ": Input should be a listed literal"
          | missing field :: _ => ": " ++ field ++ ": Field required"
          | _ => ""
          end;
     model_json_schema := fun cls => JObject [("title", JString (class_name cls))] |}.

(** The key decides what the model does. *)
Definition chat_model : ChatModel :=
  {| invoke := fun args tools system_prompt user_prompt =>
       if String.eqb (api_key_arg args) "key-alcohol" then
         Ok (ContentList
               [ PartDict [("type", JString "thinking"); ("thinking", JString "...")];
                 PartDict [("type", JString "text");
                           ("text", JString (answer_text "Alcohol"))] ])
       else if String.eqb (api_key_arg args) "key-gambling" then
         Ok (ContentList
               [ PartDict [("type", JString "text");
                           ("text", JString (answer_text "Gambling and games"))] ])
       else if String.eqb (api_key_arg args) "key-prose" then
         Ok (ContentList
               [ PartDict [("type", JString "text");
                           ("text", JString "I could not open the page.")] ])
       else if String.eqb (api_key_arg args) "key-plain" then
         Ok (ContentStr "plain answer")
       else Err (Exception "400 API key not valid.") |}.

(** One reachable site.  [/html/body/div[1]] matches two regions,
    [//aside] one region that cannot be captured, [//video] nothing, and
    any other path is malformed. *)
Definition playwright : Playwright :=
  {| Page := string;
     Region := nat;
     open_page := fun url =>
       if String.eqb url "https://example.com" then Ok url
       else if String.eqb url "https://blank.example" then Ok url
       else Err (Exception "net::ERR_NAME_NOT_RESOLVED");
     query := fun page selector =>
       if String.eqb selector "xpath=/html/body/div[1]" then Ok [1; 2]
       else if String.eqb selector "xpath=//aside" then Ok [7]
       else if String.eqb selector "xpath=//video" then Ok []
       else Err (Exception "Unexpected token while parsing selector");
     region_screenshot := fun page region =>
       if Nat.eqb region 7 then Err (Exception "Timeout 30000ms exceeded.")
       else Ok [Byte.x89; match Byte.of_nat region with Some b => b | None => Byte.x00 end];
     page_screenshot := fun page =>
       if String.eqb page "https://blank.example" then Ok []
       else Ok [Byte.x89; Byte.x50; Byte.x4e; Byte.x47];
     browser_close := fun page => Ok tt;
     no_match := Exception "Timeout 30000ms exceeded." |}.

(** The same browser, except that it cannot be closed. *)
Definition playwright_unclosable : Playwright :=
  {| Page := string;
     Region := nat;
     open_page := @open_page playwright;
     query := @query playwright;
     region_screenshot := @region_screenshot playwright;
     page_screenshot := @page_screenshot playwright;
     browser_close := fun page =>
       Err (Exception "Target page, context or browser has been closed");
     no_match := @no_match playwright |}.

(** Base64 with the standard alphabet and padding. *)
Definition b64_alphabet : string :=
  "ABCDEFGHIJKLMNOPQRSTUVWXYZabcdefghijklmnopqrstuvwxyz0123456789+/".

Definition b64_digit (n : nat) : string :=
  match String.get n b64_alphabet with
  | Some c => String c ""
  | None => ""
  end.

Fixpoint b64_groups (fuel : nat) (l : list nat) : string :=
  match fuel with
  | O => ""
  | S fuel' =>
      match l with
      | [] => ""
      | [a] =>
          b64_digit (a / 4) ++ b64_digit (a mod 4 * 16) ++ "=="
      | [a; b] =>
          b64_digit (a / 4) ++ b64_digit (a mod 4 * 16 + b / 16)
          ++ b64_digit (b mod 16 * 4) ++ "="
      | a :: b :: c :: rest =>
          b64_digit (a / 4) ++ b64_digit (a mod 4 * 16 + b / 16)
          ++ b64_digit (b mod 16 * 4 + c / 64) ++ b64_digit (c mod 64)
          ++ b64_groups fuel' rest
      end
  end.

Definition base64 (b : bytes) : string :=
  b64_groups (S (List.length b)) (map Byte.to_nat b).

Definition host : Host := {| sys_platform := "linux"; b64encode := base64 |}.

(** The whitespace of ASCII. *)
Definition ascii_isspace (c : ascii) : bool :=
  let n := nat_of_ascii c in
  (Nat.leb 9 n && Nat.leb n 13) || (Nat.leb 28 n && Nat.leb n 32).

Definition char_class : PyStr.CharClass :=
  {| PyStr.isspace := ascii_isspace; PyStr.isspace_line_feed := eq_refl |}.

Definition site : string := "https://example.com".
Definition gemini : string := "gemini-3-pro-preview".
Definition png : bytes := [Byte.x89; Byte.x50; Byte.x4e; Byte.x47].

End Scenario.

(* ===================================================================== *)
(** * Properties                                                          *)
(* ===================================================================== *)

Import Schema PolicyMapping AiAnalyzer ScreenShot Main.

(** ** Strings and dicts *)

Lemma eqb_neq_false (a b : string) : a <> b -> String.eqb a b = false.
Proof. intros Hne. apply String.eqb_neq. exact Hne. Qed.

Lemma drop_prefix (sep s : string) :
  String.prefix sep s = true -> s = sep ++ drop (String.length sep) s.
Proof.
  revert s. induction sep as [|c sep IH]; intros s Hp.
  - reflexivity.
  - destruct s as [|d s]; simpl in Hp; [discriminate|].
    destruct (Ascii.ascii_dec c d) as [->|]; [|discriminate].
    simpl. f_equal. apply IH. exact Hp.
Qed.

(** [split_once] cuts the text at an occurrence of the separator. *)
Lemma split_once_correct (sep s before after : string) :
  split_once sep s = Some (before, after) -> s = before ++ sep ++ after.
Proof.
  revert before after. induction s as [|c s IH]; intros before after Hs.
  - destruct sep as [|d sep]; simpl in Hs; [|discriminate].
    injection Hs as <- <-. reflexivity.
  - cbn [split_once] in Hs.
    destruct (String.prefix sep (String c s)) eqn:Hp.
    + injection Hs as <- <-. simpl. apply drop_prefix. exact Hp.
    + destruct (split_once sep s) as [[b a]|] eqn:Hrec; [|discriminate].
      injection Hs as <- <-. simpl. f_equal. apply IH. reflexivity.
Qed.

Lemma dict_set_fresh {V} (d : dict V) (k : string) (v : V) :
  ~ In k (dict_keys d) -> dict_set k v d = (d ++ [(k, v)])%list.
Proof.
  induction d as [|[k' v'] d IH]; intros Hk; [reflexivity|].
  simpl in *. rewrite eqb_neq_false by (intros ->; apply Hk; now left).
  f_equal. apply IH. intros Hin. apply Hk. now right.
Qed.

Lemma fold_dict_set_fresh {V} (kvs : list (string * V)) (d : dict V) :
  NoDup (map fst kvs) ->
  (forall k, In k (map fst kvs) -> ~ In k (dict_keys d)) ->
  fold_left (fun d kv => dict_set (fst kv) (snd kv) d) kvs d = (d ++ kvs)%list.
Proof.
  revert d. induction kvs as [|[k v] kvs IH]; intros d Hnd Hfresh; simpl.
  - now rewrite app_nil_r.
  - inversion Hnd as [|? ? Hk Hnd']; subst.
    rewrite dict_set_fresh by (apply Hfresh; now left).
    rewrite IH.
    + now rewrite <- app_assoc.
    + exact Hnd'.
    + intros k' Hk' Hin. unfold dict_keys in Hin. rewrite map_app in Hin.
      apply in_app_or in Hin. destruct Hin as [Hin|[<-|[]]].
      * apply (Hfresh k'); [now right|exact Hin].
      * apply Hk. exact Hk'.
Qed.

(** Assigning pairs with distinct keys to an empty dict keeps them as
    they come. *)
Lemma dict_of_pairs_nodup {V} (kvs : list (string * V)) :
  NoDup (map fst kvs) -> dict_of_pairs kvs = kvs.
Proof.
  intros Hnd. unfold dict_of_pairs. rewrite fold_dict_set_fresh; auto.
Qed.

(** ** policy_mapping.py *)

Section PolicyMappingFacts.
Context `{Builtins} `{PolicySource}.

(** One iteration of the loop stores the description or raises, leaving
    [output] as it was. *)
Lemma gather_describe (policy : string) (output : dict string) :
  gather policy output =
  match describe policy with
  | Ok text => (Ok tt, dict_set policy text output)
  | Err e => (Err e, output)
  end.
Proof.
  unfold gather, describe, bind, lift, modify, rbind.
  destruct (getitem mapping_dict policy) as [url|e]; [|reflexivity].
  destruct (requests_get_text url) as [html|e]; [|reflexivity].
  destruct (convert_to_markdown html) as [markdown|e]; [|reflexivity].
  destruct (extract_necessary_text markdown) as [text|e]; reflexivity.
Qed.

(** The loop stops at the first policy whose description cannot be had;
    [output] then holds the descriptions of the policies before it. *)
Lemma for_gather_prefix (policies : list string) (output : dict string) :
  exists done rest texts,
    policies = (done ++ rest)%list /\
    Forall2 (fun policy text => describe policy = Ok text) done texts /\
    (forall policy rest', rest = policy :: rest' -> exists e, describe policy = Err e) /\
    snd (for_ policies gather output) =
      fold_left (fun d kv => dict_set (fst kv) (snd kv) d) (combine done texts) output.
Proof.
  revert output. induction policies as [|policy policies IH]; intros output.
  - exists [], [], []. repeat split; [constructor|discriminate].
  - cbn [for_]. unfold bind. rewrite gather_describe.
    destruct (describe policy) as [text|e] eqn:Hd.
    + destruct (IH (dict_set policy text output)) as (done & rest & texts & -> & Hall & Hrest & Hout).
      exists (policy :: done), rest, (text :: texts). repeat split.
      * constructor; assumption.
      * exact Hrest.
      * exact Hout.
    + exists [], (policy :: policies), []. repeat split.
      * constructor.
      * intros p r Heq. injection Heq as <- <-. now exists e.
Qed.

(** C5. [get_policy_markdown] returns for every list of labels, and what it
    returns is the mapping gathered before the first label whose page could
    not be fetched or whose text could not be extracted: the descriptions
    of the labels before it, assigned in input order (for labels without
    repetition, exactly those pairs in that order).  No failure reaches
    the caller. *)
Theorem get_policy_markdown_returns_gathered_prefix (policies : list string) :
  exists done rest texts,
    policies = (done ++ rest)%list /\
    Forall2 (fun policy text => describe policy = Ok text) done texts /\
    (forall policy rest', rest = policy :: rest' -> exists e, describe policy = Err e) /\
    get_policy_markdown policies = Ok (dict_of_pairs (combine done texts)) /\
    (NoDup done -> get_policy_markdown policies = Ok (combine done texts)).
Proof.
  destruct (for_gather_prefix policies []) as (done & rest & texts & Hsplit & Hall & Hrest & Hout).
  assert (Hret : get_policy_markdown policies = Ok (dict_of_pairs (combine done texts))).
  { unfold get_policy_markdown, finally_return, try_except, get, raise.
    cbn [fst]. unfold dict_of_pairs. rewrite <- Hout.
    destruct (for_ policies gather []) as [[u|e] output]; reflexivity. }
  exists done, rest, texts. repeat split; try assumption.
  intros Hnd. rewrite Hret. f_equal. apply dict_of_pairs_nodup.
  assert (Hlen : List.length done = List.length texts).
  { clear -Hall. induction Hall; simpl; congruence. }
  clear -Hnd Hlen. revert texts Hlen.
  induction done as [|p done IH]; intros [|t texts] Hlen; simpl in *; try discriminate.
  - constructor.
  - inversion Hnd as [|? ? Hp Hnd']; subst. constructor.
    + intros Hin. apply Hp. clear -Hin. revert texts Hin.
      induction done as [|q done IHd]; intros [|t' texts] Hin; simpl in *; try contradiction.
      destruct Hin as [->|Hin]; [now left|right; eauto].
    + apply IH; [assumption|congruence].
Qed.

End PolicyMappingFacts.

(** ** ai_analyzer.py: the contract *)

Lemma literal_mem_In (s : string) (values : list string) :
  literal_mem s values = true <-> In s values.
Proof.
  unfold literal_mem. rewrite existsb_exists. split.
  - intros (x & Hin & Heq). apply String.eqb_eq in Heq. now subst.
  - intros Hin. exists s. split; [exact Hin|apply String.eqb_refl].
Qed.

Lemma validate_field_str (name : string) (members : dict json) (s : string) :
  validate_field Str name members = inr s <->
  dict_get members name = Some (JString s).
Proof.
  unfold validate_field.
  destruct (dict_get members name) as [[| | |s'| |]|]; split; intros Heq;
    try discriminate; now injection Heq as ->.
Qed.

Lemma validate_field_literal (values : list string) (name : string)
    (members : dict json) (s : string) :
  validate_field (Literal values) name members = inr s <->
  dict_get members name = Some (JString s) /\ In s values.
Proof.
  unfold validate_field.
  destruct (dict_get members name) as [[| | |s'| |]|];
    try (split; [discriminate|intros [Heq _]; discriminate]).
  destruct (literal_mem s' values) eqn:Hmem.
  - apply literal_mem_In in Hmem. split.
    + intros Heq. injection Heq as ->. now split.
    + intros [Heq _]. now injection Heq as ->.
  - split; [discriminate|]. intros [Heq Hin]. injection Heq as ->.
    apply literal_mem_In in Hin. congruence.
Qed.

Section ContractFacts.
Context `{Pydantic}.

(** Validation of an object against the generated class, field by field. *)
Lemma model_validate_created (labels : list string) (members : dict json) :
  let cls := create_policy_violation_analysis_model labels in
  model_validate cls (JObject members) =
  match validate_field (Literal labels) "violated_policy" members,
        validate_field Str "reason" members,
        validate_field Str "location_of_violation" members,
        validate_field Str "xpath" members with
  | inr v, inr r, inr l, inr x =>
      Ok [ ("violated_policy", v); ("reason", r);
           ("location_of_violation", l); ("xpath", x) ]
  | _, _, _, _ =>
      Err (ValidationError cls (fst (validate_fields (model_fields cls) members)))
  end.
Proof.
  unfold model_validate. cbn.
  destruct (validate_field (Literal labels) "violated_policy" members);
  destruct (validate_field Str "reason" members);
  destruct (validate_field Str "location_of_violation" members);
  destruct (validate_field Str "xpath" members); reflexivity.
Qed.

(** An accepted object has the four fields as strings, the first of them
    one of the labels, and the instance holds just these. *)
Lemma model_validate_ok_inv (labels : list string) (data : json) (inst : instance) :
  model_validate (create_policy_violation_analysis_model labels) data = Ok inst ->
  exists members v r l x,
    data = JObject members /\
    dict_get members "violated_policy" = Some (JString v) /\ In v labels /\
    dict_get members "reason" = Some (JString r) /\
    dict_get members "location_of_violation" = Some (JString l) /\
    dict_get members "xpath" = Some (JString x) /\
    inst = [ ("violated_policy", v); ("reason", r);
             ("location_of_violation", l); ("xpath", x) ].
Proof.
  destruct data as [| | | | |members]; try discriminate.
  rewrite model_validate_created.
  destruct (validate_field (Literal labels) "violated_policy" members) as [|v] eqn:Hv;
    [discriminate|].
  destruct (validate_field Str "reason" members) as [|r] eqn:Hr; [discriminate|].
  destruct (validate_field Str "location_of_violation" members) as [|l] eqn:Hl;
    [discriminate|].
  destruct (validate_field Str "xpath" members) as [|x] eqn:Hx; [discriminate|].
  intros Heq. injection Heq as <-.
  apply validate_field_literal in Hv. destruct Hv as [Hv Hin].
  apply validate_field_str in Hr, Hl, Hx.
  exists members, v, r, l, x. repeat split; assumption.
Qed.

Lemma model_validate_ok (labels : list string) (members : dict json)
    (v r l x : string) :
  dict_get members "violated_policy" = Some (JString v) -> In v labels ->
  dict_get members "reason" = Some (JString r) ->
  dict_get members "location_of_violation" = Some (JString l) ->
  dict_get members "xpath" = Some (JString x) ->
  model_validate (create_policy_violation_analysis_model labels) (JObject members) =
  Ok [ ("violated_policy", v); ("reason", r);
       ("location_of_violation", l); ("xpath", x) ].
Proof.
  intros Hv Hin Hr Hl Hx. rewrite model_validate_created.
  rewrite (proj2 (validate_field_literal labels _ members v) (conj Hv Hin)).
  apply validate_field_str in Hr, Hl, Hx. now rewrite Hr, Hl, Hx.
Qed.

(** A value of [violated_policy] that is no listed label makes the whole
    object fail, whatever the other fields are. *)
Lemma model_validate_unlisted (labels : list string) (members : dict json)
    (value : json) :
  dict_get members "violated_policy" = Some value ->
  (forall s, value = JString s -> ~ In s labels) ->
  let cls := create_policy_violation_analysis_model labels in
  model_validate cls (JObject members) =
  Err (ValidationError cls (fst (validate_fields (model_fields cls) members))).
Proof.
  intros Hv Hout cls. subst cls. rewrite model_validate_created.
  destruct (validate_field (Literal labels) "violated_policy" members) as [|v] eqn:Hf;
    [reflexivity|].
  apply validate_field_literal in Hf. destruct Hf as [Hget Hin].
  rewrite Hv in Hget. injection Hget as ->. now destruct (Hout v eq_refl).
Qed.

(** C1. For a non-empty sequence of labels [S], the contract built by
    [create_policy_violation_analysis_model S] holds [violated_policy] to
    the labels of [S]: (a) an object whose other three fields are strings
    is accepted exactly when its [violated_policy] is a string that is an
    element of [S]; (b) a label of the full catalog that is not in [S] is
    rejected, whatever the other fields; (c) the instance built from an
    accepted object carries a label of [S]. *)
Theorem contract_vocabulary_is_selection (S : list string) (HS : S <> []) :
  let cls := create_policy_violation_analysis_model S in
  (forall members value r l x,
     dict_get members "violated_policy" = Some value ->
     dict_get members "reason" = Some (JString r) ->
     dict_get members "location_of_violation" = Some (JString l) ->
     dict_get members "xpath" = Some (JString x) ->
     ((exists inst, model_validate cls (JObject members) = Ok inst) <->
      (exists v, value = JString v /\ In v S))) /\
  (forall members v,
     In v Schema.POLICY_ITEMS -> ~ In v S ->
     dict_get members "violated_policy" = Some (JString v) ->
     exists e, model_validate cls (JObject members) = Err e) /\
  (forall data inst,
     model_validate cls data = Ok inst ->
     exists v, getattr inst "violated_policy" = Ok v /\ In v S).
Proof.
  intros cls. subst cls. split; [|split].
  - intros members value r l x Hv Hr Hl Hx. split.
    + intros (inst & Hok). apply model_validate_ok_inv in Hok.
      destruct Hok as (members' & v & r' & l' & x' & Heq & Hv' & Hin & _).
      injection Heq as Heq. subst members'. rewrite Hv in Hv'.
      injection Hv' as Hv'. exists v. now split.
    + intros (v & -> & Hin). eexists. eapply model_validate_ok; eassumption.
  - intros members v _ Hout Hv. eexists.
    apply model_validate_unlisted with (value := JString v); [exact Hv|].
    intros s Heq. injection Heq as <-. exact Hout.
  - intros data inst Hok. apply model_validate_ok_inv in Hok.
    destruct Hok as (members & v & r & l & x & _ & _ & Hin & _ & _ & _ & ->).
    exists v. now split.
Qed.

End ContractFacts.

(** ** ai_analyzer.py: the analysis *)

Section AnalyzeFacts.
Context `{Builtins} `{PolicySource} `{Pydantic} `{ChatModel}.

(** The [return] in the [finally] clause makes the fetch total. *)
Lemma get_policy_markdown_total (policies : list string) :
  exists output, get_policy_markdown policies = Ok output.
Proof.
  unfold get_policy_markdown, finally_return, get. cbn [fst].
  eexists. reflexivity.
Qed.

(** The two nested [try] statements, as a case analysis on the steps. *)
Lemma analyze_with_ai_cases (url : string) (labels : list string)
    (api_key model_name : string) :
  analyze_with_ai url labels api_key model_name =
  match invoke_model url labels api_key model_name with
  | Err e => Err (Exception ("AI analysis error: " ++ str_exn e))
  | Ok c =>
      match output_text_of c with
      | Err e => Err (Exception ("AI analysis error: " ++ str_exn e))
      | Ok text =>
          match model_validate_json (create_policy_violation_analysis_model labels) text with
          | Ok analysis => Ok analysis
          | Err e =>
              Err (Exception ("AI analysis error: " ++ "Error parsing response: " ++ str_exn e))
          end
      end
  end.
Proof.
  unfold analyze_with_ai, rtry, rbind.
  destruct (invoke_model url labels api_key model_name) as [c|e]; [|reflexivity].
  destruct (output_text_of c) as [text|e]; [|reflexivity].
  destruct (model_validate_json _ text) as [analysis|e]; reflexivity.
Qed.

(** A value is returned only after all three steps succeeded. *)
Lemma analyze_with_ai_ok_inv (url : string) (labels : list string)
    (api_key model_name : string) (analysis : instance) :
  analyze_with_ai url labels api_key model_name = Ok analysis ->
  exists c text document,
    invoke_model url labels api_key model_name = Ok c /\
    output_text_of c = Ok (JString text) /\
    from_json text = inr document /\
    model_validate (create_policy_violation_analysis_model labels) document = Ok analysis.
Proof.
  rewrite analyze_with_ai_cases.
  destruct (invoke_model url labels api_key model_name) as [c|e] eqn:Hc; [|discriminate].
  destruct (output_text_of c) as [data|e] eqn:Ht; [|discriminate].
  destruct (model_validate_json _ data) as [a|e] eqn:Hv; [|discriminate].
  intros Heq. injection Heq as Heq. subst a.
  unfold model_validate_json in Hv.
  destruct data as [| | |text| |]; try discriminate.
  destruct (from_json text) as [detail|document] eqn:Hj; [discriminate|].
  exists c, text, document. repeat split; assumption.
Qed.

(** C2. Whenever [analyze_with_ai url labels api_key model_name] returns a
    value, the [violated_policy] of that value is an element of the
    [labels] given to this call. *)
Theorem analyze_violated_policy_in_labels (url : string) (labels : list string)
    (api_key model_name : string) (analysis : instance) :
  analyze_with_ai url labels api_key model_name = Ok analysis ->
  exists v, getattr analysis "violated_policy" = Ok v /\ In v labels.
Proof.
  intros Hok. apply analyze_with_ai_ok_inv in Hok.
  destruct Hok as (c & text & document & _ & _ & _ & Hval).
  apply model_validate_ok_inv in Hval.
  destruct Hval as (members & v & r & l & x & _ & _ & Hin & _ & _ & _ & ->).
  exists v. now split.
Qed.

(** C4. Whenever a step of the analysis fails (the request to the model
    raises, the answer has no final text, the text is not JSON, the
    document fails validation, or its [violated_policy] is outside the
    labels of the call), [analyze_with_ai] raises one exception whose
    message starts with "AI analysis error: " and ends with the message of
    the cause; it returns no value. *)
Theorem analyze_fault_is_reraised (url : string) (labels : list string)
    (api_key model_name : string) (cause : exn) :
  analysis_fault url labels api_key model_name cause ->
  exists wrapping,
    (wrapping = "" \/ wrapping = "Error parsing response: ") /\
    analyze_with_ai url labels api_key model_name =
      Err (Exception ("AI analysis error: " ++ wrapping ++ str_exn cause)) /\
    (forall analysis, analyze_with_ai url labels api_key model_name <> Ok analysis).
Proof.
  intros Hfault.
  assert (Hraise : exists wrapping,
            (wrapping = "" \/ wrapping = "Error parsing response: ") /\
            analyze_with_ai url labels api_key model_name =
              Err (Exception ("AI analysis error: " ++ wrapping ++ str_exn cause))).
  { rewrite analyze_with_ai_cases.
    destruct Hfault as [e He|c e Hc He|c text detail Hc Ht Hj
                        |c text document e Hc Ht Hj Hv|c text members value Hc Ht Hj Hm Hout].
    - rewrite He. exists "". split; [now left|reflexivity].
    - rewrite Hc, He. exists "". split; [now left|reflexivity].
    - rewrite Hc, Ht. unfold model_validate_json. rewrite Hj.
      exists "Error parsing response: ". split; [now right|reflexivity].
    - rewrite Hc, Ht. unfold model_validate_json. rewrite Hj, Hv.
      exists "Error parsing response: ". split; [now right|reflexivity].
    - rewrite Hc, Ht. unfold model_validate_json. rewrite Hj.
      rewrite (model_validate_unlisted labels members value Hm Hout).
      exists "Error parsing response: ". split; [now right|reflexivity]. }
  destruct Hraise as (wrapping & Hw & Heq).
  exists wrapping. repeat split; try assumption.
  intros analysis Hok. rewrite Heq in Hok. discriminate.
Qed.

(** C8. When the final text of the model's answer is a JSON document of the
    contract's shape for the labels of the call (an object whose
    [violated_policy] is one of the labels and whose [reason],
    [location_of_violation] and [xpath] are strings), [analyze_with_ai]
    returns a value whose four fields are the strings of the document,
    unchanged. *)
Theorem analyze_round_trip (url : string) (labels : list string)
    (api_key model_name : string) (c : content) (text : string)
    (members : dict json) (v r l x : string) :
  invoke_model url labels api_key model_name = Ok c ->
  output_text_of c = Ok (JString text) ->
  from_json text = inr (JObject members) ->
  dict_get members "violated_policy" = Some (JString v) -> In v labels ->
  dict_get members "reason" = Some (JString r) ->
  dict_get members "location_of_violation" = Some (JString l) ->
  dict_get members "xpath" = Some (JString x) ->
  exists analysis,
    analyze_with_ai url labels api_key model_name = Ok analysis /\
    getattr analysis "violated_policy" = Ok v /\
    getattr analysis "reason" = Ok r /\
    getattr analysis "location_of_violation" = Ok l /\
    getattr analysis "xpath" = Ok x.
Proof.
  intros Hc Ht Hj Hv Hin Hr Hl Hx.
  exists [ ("violated_policy", v); ("reason", r);
           ("location_of_violation", l); ("xpath", x) ].
  split; [|repeat split].
  rewrite analyze_with_ai_cases, Hc, Ht. unfold model_validate_json. rewrite Hj.
  now rewrite (model_validate_ok labels members v r l x Hv Hin Hr Hl Hx).
Qed.

End AnalyzeFacts.

(** ** screen_shot.py *)

Ltac unfold_effects :=
  unfold try_except, bind, lift, ret, warn, modify, raise, rbind in *.

Section CaptureFacts.
Context `{Builtins} `{Playwright} `{Host}.

(** The outer handler turns every exception into [None]. *)
Lemma take_xpath_screenshot_never_raises (url : string) (anchor : option string)
    (emitted : warnings) :
  exists shot emitted', take_xpath_screenshot url anchor emitted = (Ok shot, emitted').
Proof.
  unfold take_xpath_screenshot. unfold try_except at 1.
  match goal with |- context [match ?body emitted with _ => _ end] =>
    destruct (body emitted) as [[shot|e] emitted'] end.
  - now exists shot, emitted'.
  - unfold_effects. now eexists _, _.
Qed.

Lemma take_xpath_screenshot_unreachable (url : string) (anchor : option string)
    (emitted : warnings) (e : exn) :
  open_page url = Err e ->
  take_xpath_screenshot url anchor emitted =
  (Ok None, (emitted ++ [capture_warning url e])%list).
Proof.
  intros Hopen. unfold take_xpath_screenshot. unfold_effects.
  rewrite Hopen. reflexivity.
Qed.

Lemma take_xpath_screenshot_no_anchor (url : string) (anchor : option string)
    (page : Page) (emitted : warnings) :
  open_page url = Ok page ->
  truthy_opt_str anchor = false ->
  take_xpath_screenshot url anchor emitted = full_page page url emitted.
Proof.
  intros Hopen Hfalsy. unfold take_xpath_screenshot, full_page, release. unfold_effects.
  rewrite Hopen.
  destruct anchor as [x|]; cbn in Hfalsy; [rewrite Hfalsy|];
    destruct (page_screenshot page) as [b|e]; try reflexivity;
    destruct (browser_close page) as [u|e]; reflexivity.
Qed.

Lemma take_xpath_screenshot_region (url x : string) (page : Page)
    (region : Region) (others : list Region) (b : bytes) (emitted : warnings) :
  open_page url = Ok page ->
  truthy_str x = true ->
  query page ("xpath=" ++ x) = Ok (region :: others) ->
  region_screenshot page region = Ok b ->
  take_xpath_screenshot url (Some x) emitted = release page url b emitted.
Proof.
  intros Hopen Htruthy Hquery Hshot.
  unfold take_xpath_screenshot, release, first_count, first_screenshot. unfold_effects.
  rewrite Hopen, Htruthy, Hquery. cbn. rewrite Hshot.
  destruct (browser_close page) as [u|e]; reflexivity.
Qed.

Lemma take_xpath_screenshot_region_fails (url x : string) (page : Page)
    (region : Region) (others : list Region) (e : exn) (emitted : warnings) :
  open_page url = Ok page ->
  truthy_str x = true ->
  query page ("xpath=" ++ x) = Ok (region :: others) ->
  region_screenshot page region = Err e ->
  take_xpath_screenshot url (Some x) emitted =
  full_page page url (emitted ++ [anchor_warning x e])%list.
Proof.
  intros Hopen Htruthy Hquery Hshot.
  unfold take_xpath_screenshot, full_page, release, first_count, first_screenshot.
  unfold_effects. rewrite Hopen, Htruthy, Hquery. cbn. rewrite Hshot.
  destruct (page_screenshot page) as [b|e']; try reflexivity.
  destruct (browser_close page) as [u|e']; reflexivity.
Qed.

Lemma take_xpath_screenshot_malformed (url x : string) (page : Page)
    (e : exn) (emitted : warnings) :
  open_page url = Ok page ->
  truthy_str x = true ->
  query page ("xpath=" ++ x) = Err e ->
  take_xpath_screenshot url (Some x) emitted =
  full_page page url (emitted ++ [anchor_warning x e])%list.
Proof.
  intros Hopen Htruthy Hquery.
  unfold take_xpath_screenshot, full_page, release, first_count, first_screenshot.
  unfold_effects. rewrite Hopen, Htruthy, Hquery.
  destruct (page_screenshot page) as [b|e']; try reflexivity.
  destruct (browser_close page) as [u|e']; reflexivity.
Qed.

(** With no match the full page is taken inside the inner [try]: without
    a warning when that works, and once more after the warning of the
    inner handler when it raises. *)
Lemma take_xpath_screenshot_no_match (url x : string) (page : Page)
    (emitted : warnings) :
  open_page url = Ok page ->
  truthy_str x = true ->
  query page ("xpath=" ++ x) = Ok [] ->
  take_xpath_screenshot url (Some x) emitted =
  match page_screenshot page with
  | Ok b => release page url b emitted
  | Err e => full_page page url (emitted ++ [anchor_warning x e])%list
  end.
Proof.
  intros Hopen Htruthy Hquery.
  unfold take_xpath_screenshot, full_page, release, first_count, first_screenshot.
  unfold_effects. rewrite Hopen, Htruthy, Hquery. cbn.
  destruct (page_screenshot page) as [b|e']; try reflexivity.
  destruct (browser_close page) as [u|e']; reflexivity.
Qed.

(** [take_screenshot] encodes a non-empty capture and drops the rest. *)
Lemma take_screenshot_cases (url : string) (anchor : option string)
    (emitted : warnings) :
  take_screenshot url anchor emitted =
  match take_xpath_screenshot url anchor emitted with
  | (Ok (Some (b :: bs)), emitted') => (Ok (Some (b64encode (b :: bs))), emitted')
  | (Ok _, emitted') => (Ok None, emitted')
  | (Err e, emitted') => (Err e, emitted')
  end.
Proof.
  unfold take_screenshot. unfold bind, ret.
  destruct (String.eqb sys_platform "win32");
    destruct (take_xpath_screenshot url anchor emitted) as [[[[|b bs]|]|e] emitted'];
    reflexivity.
Qed.


End CaptureFacts.

Lemma truthy_str_nonempty (x : string) : truthy_str x = true <-> x <> "".
Proof.
  unfold truthy_str. destruct (String.eqb_spec x "") as [->|Hne]; cbn.
  - split; [discriminate|intros Hx; now destruct Hx].
  - split; auto.
Qed.

Section CaptureClaims.
Context `{Builtins} `{Playwright} `{Host}.


(** The two ways into the full-page fallback, side by side.  With a
    non-empty anchor on a rendered page: when resolving the anchor raises,
    the handler emits the warning that the anchor is invalid or was not
    found before the full page is taken; when the anchor resolves to no
    region, the [else] branch takes the full page and calls no
    [warnings.warn]. *)
Lemma anchor_fallback_warning (url x : string) (page : Page) (emitted : warnings) :
  open_page url = Ok page ->
  x <> "" ->
  (forall e, query page ("xpath=" ++ x) = Err e ->
     exists later,
       snd (take_xpath_screenshot url (Some x) emitted) =
       (emitted ++ anchor_warning x e :: later)%list) /\
  (forall b, query page ("xpath=" ++ x) = Ok [] ->
     page_screenshot page = Ok b -> browser_close page = Ok tt ->
     take_xpath_screenshot url (Some x) emitted = (Ok (Some b), emitted)).
Proof.
  intros Hopen Hx. apply truthy_str_nonempty in Hx. split.
  - intros e Hq.
    rewrite (take_xpath_screenshot_malformed url x page e emitted Hopen Hx Hq).
    unfold full_page, release.
    destruct (page_screenshot page) as [b|e'];
      [destruct (browser_close page) as [u|e']|]; cbn;
      rewrite <- ?app_assoc; cbn; eexists; reflexivity.
  - intros b Hq Hb Hclose.
    rewrite (take_xpath_screenshot_no_match url x page emitted Hopen Hx Hq), Hb.
    unfold release. now rewrite Hclose.
Qed.

(** C10. [take_screenshot] returns [None] exactly when the capture returned
    [None] or an empty byte string, and every other result is the base64
    text of the non-empty byte string that was captured. *)
Theorem take_screenshot_absent_iff_no_bytes (url : string) (anchor : option string)
    (emitted : warnings) :
  (fst (take_screenshot url anchor emitted) = Ok None <->
   (fst (take_xpath_screenshot url anchor emitted) = Ok None \/
    fst (take_xpath_screenshot url anchor emitted) = Ok (Some []))) /\
  (forall s,
     fst (take_screenshot url anchor emitted) = Ok (Some s) ->
     exists b, b <> [] /\
               fst (take_xpath_screenshot url anchor emitted) = Ok (Some b) /\
               s = b64encode b).
Proof.
  rewrite take_screenshot_cases.
  destruct (take_xpath_screenshot_never_raises url anchor emitted) as (shot & emitted' & ->).
  destruct shot as [[|b bs]|]; cbn; split.
  - split; auto.
  - discriminate.
  - split; [discriminate|intros [Hn|Hn]; discriminate].
  - intros s Heq. injection Heq as <-. exists (b :: bs). now repeat split.
  - split; auto.
  - discriminate.
Qed.

End CaptureClaims.

(** ** main.py *)

Section OrchestrationFacts.
Context `{Builtins} `{PolicySource} `{Pydantic} `{ChatModel} `{Playwright} `{Host}.

Ltac unfold_process_url :=
  unfold process_url, try_except, bind, lift, ret, assign, read, emitting, modify.

Lemma process_url_analysis_raises (url : string) (labels : list string)
    (api_key model_name : string) (e : exn) (emitted : warnings) :
  analyze_with_ai url labels api_key model_name = Err e ->
  process_url url labels api_key model_name emitted = (Ok (failed_record url e), emitted).
Proof.
  intros Hfail. unfold_process_url. rewrite Hfail. reflexivity.
Qed.

(** [process_url] returns a record for its URL, whatever happens inside. *)
Lemma process_url_returns (url : string) (labels : list string)
    (api_key model_name : string) (emitted : warnings) :
  exists record emitted',
    process_url url labels api_key model_name emitted = (Ok record, emitted') /\
    url_ record = url.
Proof.
  unfold_process_url.
  destruct (analyze_with_ai url labels api_key model_name) as [analysis|e];
    [|now eexists _, _].
  destruct (getattr analysis "violated_policy") as [v|e]; [|now eexists _, _].
  destruct (getattr analysis "reason") as [r|e]; [|now eexists _, _].
  cbn.
  destruct (take_screenshot url (getattr_default Some analysis "xpath" None) emitted)
    as [[shot|e] emitted']; [|now eexists _, _].
  destruct (truthy_opt_str shot); now eexists _, _.
Qed.

(** The loop appends one record per URL, in the order of the URLs. *)
Lemma for_append_result (urls : list string) (labels : list string)
    (api_key model_name : string) (results : list page_record) (emitted : warnings) :
  exists records emitted',
    for_ urls (fun url => append_result url labels api_key model_name) (results, emitted)
      = (Ok tt, ((results ++ records)%list, emitted')) /\
    Forall2 (fun url record =>
               url_ record = url /\
               exists w w', process_url url labels api_key model_name w = (Ok record, w'))
            urls records.
Proof.
  revert results emitted. induction urls as [|url urls IH]; intros results emitted.
  - exists [], emitted. cbn. rewrite app_nil_r. split; [reflexivity|constructor].
  - cbn [for_]. unfold bind at 1. unfold append_result at 1. cbn [fst snd].
    destruct (process_url_returns url labels api_key model_name emitted)
      as (record & emitted1 & Hrun & Hurl).
    rewrite Hrun.
    destruct (IH (results ++ [record])%list emitted1) as (records & emitted2 & Hloop & Hall).
    exists (record :: records), emitted2. split.
    + rewrite Hloop. now rewrite <- app_assoc.
    + constructor; [|exact Hall]. split; [exact Hurl|now exists emitted, emitted1].
Qed.

Lemma Forall2_nth_error {A B} (P : A -> B -> Prop) (l : list A) (l' : list B)
    (i : nat) (a : A) :
  Forall2 P l l' -> nth_error l i = Some a ->
  exists b, nth_error l' i = Some b /\ P a b.
Proof.
  intros Hall. revert i. induction Hall as [|x y l l' Hxy Hall IH]; intros i Hi.
  - destruct i; discriminate.
  - destruct i as [|i]; cbn in *.
    + injection Hi as <-. now exists y.
    + now apply IH.
Qed.

(** C6. When the analysis of a URL raises, [process_url] still returns: the
    record has [violated_policy] "Error" and keeps the message of the
    failure in [error] (and in [reason]).  The loop of [main] returns one
    record per URL in the order of the URLs, so the URLs after a failed
    one are processed; the record at the place of a failed URL is the
    failed record. *)
Theorem failed_url_is_recorded_and_batch_continues (labels : list string)
    (api_key model_name : string) :
  (forall url e emitted,
     analyze_with_ai url labels api_key model_name = Err e ->
     exists record,
       process_url url labels api_key model_name emitted = (Ok record, emitted) /\
       url_ record = url /\
       violated_policy record = "Error" /\
       error record = Some (str_exn e) /\
       reason record = "Processing error: " ++ str_exn e) /\
  (forall urls results emitted,
     exists records emitted',
       main_loop urls labels api_key model_name (results, emitted)
         = (Ok tt, (records, emitted')) /\
       map url_ records = urls /\
       forall i url e,
         nth_error urls i = Some url ->
         analyze_with_ai url labels api_key model_name = Err e ->
         nth_error records i = Some (failed_record url e)).
Proof.
  split.
  - intros url e emitted Hfail. exists (failed_record url e).
    rewrite (process_url_analysis_raises url labels api_key model_name e emitted Hfail).
    now repeat split.
  - intros urls results emitted.
    destruct (for_append_result urls labels api_key model_name [] emitted)
      as (records & emitted' & Hloop & Hall).
    exists records, emitted'. split; [|split].
    + unfold main_loop. unfold bind at 1. unfold modify. cbn [fst snd].
      exact Hloop.
    + clear Hloop. induction Hall as [|url record urls records [Hurl _] Hall IH];
        cbn; [reflexivity|]. now rewrite Hurl, IH.
    + intros i url e Hi Hfail.
      destruct (Forall2_nth_error _ urls records i url Hall Hi)
        as (record & Hrecord & _ & w & w' & Hrun).
      rewrite (process_url_analysis_raises url labels api_key model_name e w Hfail) in Hrun.
      injection Hrun as <- _. exact Hrecord.
Qed.

(** C9. When the analysis of a URL succeeds and the screenshot that follows
    is absent, [process_url] returns a record whose [violated_policy],
    [reason], [location_of_violation] and [xpath] are those of the
    analysis, whose [screenshot_base64] is still absent and whose [error]
    is the screenshot-failure message. *)
Theorem screenshot_absence_keeps_analysis (url : string) (labels : list string)
    (api_key model_name : string) (analysis : instance) (emitted emitted' : warnings) :
  analyze_with_ai url labels api_key model_name = Ok analysis ->
  take_screenshot url (getattr_default Some analysis "xpath" None) emitted
    = (Ok None, emitted') ->
  exists v r l x,
    getattr analysis "violated_policy" = Ok v /\
    getattr analysis "reason" = Ok r /\
    getattr analysis "location_of_violation" = Ok l /\
    getattr analysis "xpath" = Ok x /\
    process_url url labels api_key model_name emitted =
      (Ok {| url_ := url;
             violated_policy := v;
             reason := r;
             location_of_violation := l;
             screenshot_base64 := None;
             xpath := Some x;
             error := Some "Failed to take screenshot" |},
       emitted').
Proof.
  intros Hok Hshot.
  destruct (analyze_with_ai_ok_inv url labels api_key model_name analysis Hok)
    as (c & text & document & _ & _ & _ & Hval).
  apply model_validate_ok_inv in Hval.
  destruct Hval as (members & v & r & l & x & _ & _ & _ & _ & _ & _ & ->).
  exists v, r, l, x. repeat split.
  unfold_process_url. rewrite Hok. cbn. cbn in Hshot. rewrite Hshot. reflexivity.
Qed.

End OrchestrationFacts.

(* ===================================================================== *)
(** * The program run on the concrete world                               *)
(* ===================================================================== *)

Import Scenario.
#[local] Existing Instance builtins.
#[local] Existing Instance policy_source.
#[local] Existing Instance pydantic.
#[local] Existing Instance chat_model.
#[local] Existing Instance playwright.
#[local] Existing Instance host.

Example extract_necessary_text_alcohol :
  extract_necessary_text alcohol_page = Ok ("Ads for alcohol are restricted." ++ nl).
Proof. reflexivity. Qed.

Example extract_necessary_text_no_marker :
  extract_necessary_text "<html>404</html>" = Err (IndexError "list index out of range").
Proof. reflexivity. Qed.

(** The second label cannot be fetched: the first description is returned
    and the third label is never reached. *)
Example get_policy_markdown_partial_run :
  get_policy_markdown ["Alcohol"; "Misrepresentation"; "Alcohol"]
  = Ok [("Alcohol", "Ads for alcohol are restricted." ++ nl)].
Proof. reflexivity. Qed.

Example get_policy_markdown_unknown_label :
  get_policy_markdown ["No such policy"; "Alcohol"] = Ok [].
Proof. reflexivity. Qed.

Example tools_of_gemini : tools_of gemini = [url_context].
Proof. reflexivity. Qed.

Lemma contract_vocabulary_is_selection_witness :
  ["Alcohol"] <> [] /\
  ((exists inst,
      model_validate (create_policy_violation_analysis_model ["Alcohol"])
        (answer_doc "Alcohol") = Ok inst) <->
   (exists v, JString "Alcohol" = JString v /\ In v ["Alcohol"])) /\
  (exists e,
      model_validate (create_policy_violation_analysis_model ["Alcohol"])
        (answer_doc "Gambling and games") = Err e).
Proof.
  assert (Hne : ["Alcohol"] <> []) by discriminate.
  destruct (contract_vocabulary_is_selection ["Alcohol"] Hne) as (Hiff & Hrej & _).
  split; [exact Hne|split].
  - unfold answer_doc. eapply Hiff; reflexivity.
  - unfold answer_doc. apply (Hrej _ "Gambling and games").
    + cbn. tauto.
    + cbn. intros [Heq|[]]. discriminate Heq.
    + reflexivity.
Defined.

Lemma analyze_violated_policy_in_labels_witness :
  analyze_with_ai site ["Alcohol"; "Misrepresentation"] "key-alcohol" gemini
    = Ok [ ("violated_policy", "Alcohol");
           ("reason", "The page sells beer to minors. This is restricted.");
           ("location_of_violation", "top banner");
           ("xpath", "/html/body/div[1]") ] /\
  exists v,
    getattr [ ("violated_policy", "Alcohol");
              ("reason", "The page sells beer to minors. This is restricted.");
              ("location_of_violation", "top banner");
              ("xpath", "/html/body/div[1]") ] "violated_policy" = Ok v /\
    In v ["Alcohol"; "Misrepresentation"].
Proof.
  split; [reflexivity|].
  apply (analyze_violated_policy_in_labels site ["Alcohol"; "Misrepresentation"]
           "key-alcohol" gemini).
  reflexivity.
Defined.

(** The model answers in prose: the decoder's finding comes back wrapped. *)
Lemma analyze_fault_is_reraised_witness :
  analysis_fault site ["Alcohol"] "key-prose" gemini
    (ValidationError (create_policy_violation_analysis_model ["Alcohol"])
       [json_invalid "expected value at line 1 column 1"]) /\
  exists wrapping,
    (wrapping = "" \/ wrapping = "Error parsing response: ") /\
    analyze_with_ai site ["Alcohol"] "key-prose" gemini =
      Err (Exception
             ("AI analysis error: " ++ wrapping
              ++ str_exn (ValidationError
                            (create_policy_violation_analysis_model ["Alcohol"])
                            [json_invalid "expected value at line 1 column 1"]))) /\
    (forall analysis,
       analyze_with_ai site ["Alcohol"] "key-prose" gemini <> Ok analysis).
Proof.
  assert (Hfault : analysis_fault site ["Alcohol"] "key-prose" gemini
            (ValidationError (create_policy_violation_analysis_model ["Alcohol"])
               [json_invalid "expected value at line 1 column 1"])).
  { eapply not_json with (text := "I could not open the page."); reflexivity. }
  split; [exact Hfault|].
  exact (analyze_fault_is_reraised site ["Alcohol"] "key-prose" gemini _ Hfault).
Defined.

(** The other faults, run. *)
Example analyze_transport_error_run :
  analyze_with_ai site ["Alcohol"] "no key" gemini
  = Err (Exception "AI analysis error: 400 API key not valid.").
Proof. reflexivity. Qed.

Example analyze_unlisted_policy_run :
  analyze_with_ai site ["Alcohol"] "key-gambling" gemini
  = Err (Exception
           ("AI analysis error: Error parsing response: "
            ++ "validation error for PolicyViolationAnalysis: "
            ++ "violated_policy: Input should be a listed literal")).
Proof. reflexivity. Qed.

Example analyze_plain_content_run :
  analyze_with_ai site ["Alcohol"] "key-plain" gemini
  = Err (Exception "AI analysis error: 'str' object has no attribute 'get'").
Proof. reflexivity. Qed.

Lemma analyze_round_trip_witness :
  exists analysis,
    analyze_with_ai site ["Alcohol"] "key-alcohol" gemini = Ok analysis /\
    getattr analysis "violated_policy" = Ok "Alcohol" /\
    getattr analysis "reason" = Ok "The page sells beer to minors. This is restricted." /\
    getattr analysis "location_of_violation" = Ok "top banner" /\
    getattr analysis "xpath" = Ok "/html/body/div[1]".
Proof.
  eapply (analyze_round_trip site ["Alcohol"] "key-alcohol" gemini _
            (answer_text "Alcohol")).
  - reflexivity.
  - reflexivity.
  - reflexivity.
  - reflexivity.
  - cbn. tauto.
  - reflexivity.
  - reflexivity.
  - reflexivity.
Defined.

Example base64_png : base64 png = "iVBORw==".
Proof. reflexivity. Qed.

(** The anchor [//aside] resolves to one region whose capture times out:
    the result is the image of the full page, after a warning. *)
Example take_xpath_screenshot_region_timeout_run :
  take_xpath_screenshot site (Some "//aside") []
  = (Ok (Some png),
     ["XPath '//aside' is invalid or element not found. Taking full page screenshot: Timeout 30000ms exceeded."]).
Proof. reflexivity. Qed.

(** A blank page is captured as no bytes at all, and the caller is told
    that there is no screenshot. *)
Example take_screenshot_blank_page_run :
  take_xpath_screenshot "https://blank.example" None [] = (Ok (Some []), []) /\
  take_screenshot "https://blank.example" None [] = (Ok None, []).
Proof. split; reflexivity. Qed.



(** The anchor [//video] resolves to nothing: the full page is taken and
    nothing is warned. *)
Example take_xpath_screenshot_no_match_run :
  take_xpath_screenshot site (Some "//video") [] = (Ok (Some png), []).
Proof. reflexivity. Qed.

(** C7. The code at the input on which it departs from the claim.  The
    page is rendered and the anchor [//video] resolves to no region: the
    full page is returned and the list of warnings stays empty, although
    the claim asks for a warning that the anchor was invalid or not found.
    The sibling path of the same [try], a malformed anchor, does give that
    warning, and its text is the one that names "element not found". *)
Theorem zero_match_fallback_emits_no_warning :
  open_page site = Ok site /\
  query site "xpath=//video" = Ok [] /\
  take_xpath_screenshot site (Some "//video") [] = (Ok (Some png), []) /\
  query site "xpath=//[" = Err (Exception "Unexpected token while parsing selector") /\
  take_xpath_screenshot site (Some "//[") [] =
    (Ok (Some png),
     ["XPath '//[' is invalid or element not found. Taking full page screenshot: Unexpected token while parsing selector"]).
Proof. repeat split. Qed.

(** C7 as stated: a fallback for a present anchor, by zero matches or by a
    raising resolution, leaves a new warning.  It fails on the run above. *)
Lemma zero_match_warning_counterexample :
  ~ (forall (url x : string) (page : Page) (emitted : warnings),
       open_page url = Ok page ->
       x <> "" ->
       (query page ("xpath=" ++ x) = Ok [] \/
        exists e, query page ("xpath=" ++ x) = Err e) ->
       exists msg later,
         snd (take_xpath_screenshot url (Some x) emitted) = (emitted ++ msg :: later)%list).
Proof.
  intros Hclaim.
  destruct (Hclaim site "//video" site [] eq_refl) as (msg & later & Hlog).
  - discriminate.
  - now left.
  - discriminate Hlog.
Qed.

Lemma anchor_fallback_warning_witness :
  open_page site = Ok site /\
  "//[" <> "" /\
  query site "xpath=//[" = Err (Exception "Unexpected token while parsing selector") /\
  exists later,
    snd (take_xpath_screenshot site (Some "//[") []) =
    anchor_warning "//[" (Exception "Unexpected token while parsing selector") :: later.
Proof.
  assert (Hx : "//[" <> "") by discriminate.
  destruct (@anchor_fallback_warning builtins playwright site "//[" site [] eq_refl Hx)
    as (Hwarn & _).
  split; [reflexivity|]. split; [exact Hx|]. split; [reflexivity|].
  apply (Hwarn (Exception "Unexpected token while parsing selector")).
  reflexivity.
Defined.

(** A blank page gives an image of no bytes: the caller gets [None]. *)
Lemma take_screenshot_absent_iff_no_bytes_witness :
  fst (take_xpath_screenshot "https://blank.example" (Some "//video") []) = Ok (Some []) /\
  fst (take_screenshot "https://blank.example" (Some "//video") []) = Ok None.
Proof.
  split; [reflexivity|].
  apply (take_screenshot_absent_iff_no_bytes "https://blank.example" (Some "//video") []).
  right. reflexivity.
Defined.

Example take_screenshot_region_run :
  take_screenshot site (Some "/html/body/div[1]") [] = (Ok (Some "iQE="), []).
Proof. reflexivity. Qed.

Lemma failed_url_is_recorded_and_batch_continues_witness :
  analyze_with_ai "https://b.example" ["Alcohol"] "key-prose" gemini
    = Err (Exception
             ("AI analysis error: Error parsing response: "
              ++ "validation error for PolicyViolationAnalysis: "
              ++ "Invalid JSON: expected value at line 1 column 1")) /\
  exists records emitted',
    main_loop [site; "https://b.example"; site] ["Alcohol"] "key-prose" gemini ([], [])
      = (Ok tt, (records, emitted')) /\
    map url_ records = [site; "https://b.example"; site] /\
    nth_error records 1 =
      Some (failed_record "https://b.example"
              (Exception
                 ("AI analysis error: Error parsing response: "
                  ++ "validation error for PolicyViolationAnalysis: "
                  ++ "Invalid JSON: expected value at line 1 column 1"))).
Proof.
  split; [reflexivity|].
  destruct (failed_url_is_recorded_and_batch_continues ["Alcohol"] "key-prose" gemini)
    as (_ & Hloop).
  destruct (Hloop [site; "https://b.example"; site] [] [])
    as (records & emitted' & Hrun & Hurls & Hfailed).
  exists records, emitted'. split; [exact Hrun|]. split; [exact Hurls|].
  apply (Hfailed 1 "https://b.example"); reflexivity.
Defined.

(** A batch in which the analysis works and one site cannot be rendered. *)
Example main_loop_run :
  main_loop [site; "https://nowhere.invalid"] ["Alcohol"] "key-alcohol" gemini ([], [])
  = (Ok tt,
     ([ {| url_ := site;
           violated_policy := "Alcohol";
           reason := "The page sells beer to minors. This is restricted.";
           location_of_violation := "top banner";
           screenshot_base64 := Some "iQE=";
           xpath := Some "/html/body/div[1]";
           error := None |};
        {| url_ := "https://nowhere.invalid";
           violated_policy := "Alcohol";
           reason := "The page sells beer to minors. This is restricted.";
           location_of_violation := "top banner";
           screenshot_base64 := None;
           xpath := Some "/html/body/div[1]";
           error := Some "Failed to take screenshot" |} ],
      ["Screenshot error for https://nowhere.invalid: net::ERR_NAME_NOT_RESOLVED"])).
Proof. reflexivity. Qed.

Lemma screenshot_absence_keeps_analysis_witness :
  analyze_with_ai "https://nowhere.invalid" ["Alcohol"] "key-alcohol" gemini
    = Ok [ ("violated_policy", "Alcohol");
           ("reason", "The page sells beer to minors. This is restricted.");
           ("location_of_violation", "top banner");
           ("xpath", "/html/body/div[1]") ] /\
  take_screenshot "https://nowhere.invalid" (Some "/html/body/div[1]") []
    = (Ok None,
       ["Screenshot error for https://nowhere.invalid: net::ERR_NAME_NOT_RESOLVED"]) /\
  exists v r l x,
    process_url "https://nowhere.invalid" ["Alcohol"] "key-alcohol" gemini [] =
      (Ok {| url_ := "https://nowhere.invalid";
             violated_policy := v;
             reason := r;
             location_of_violation := l;
             screenshot_base64 := None;
             xpath := Some x;
             error := Some "Failed to take screenshot" |},
       ["Screenshot error for https://nowhere.invalid: net::ERR_NAME_NOT_RESOLVED"]).
Proof.
  assert (Hok : analyze_with_ai "https://nowhere.invalid" ["Alcohol"] "key-alcohol" gemini
                = Ok [ ("violated_policy", "Alcohol");
                       ("reason", "The page sells beer to minors. This is restricted.");
                       ("location_of_violation", "top banner");
                       ("xpath", "/html/body/div[1]") ]) by reflexivity.
  assert (Hshot : take_screenshot "https://nowhere.invalid" (Some "/html/body/div[1]") []
                  = (Ok None,
                     ["Screenshot error for https://nowhere.invalid: net::ERR_NAME_NOT_RESOLVED"]))
    by reflexivity.
  split; [exact Hok|]. split; [exact Hshot|].
  destruct (screenshot_absence_keeps_analysis _ _ _ _ _ _ _ Hok Hshot)
    as (v & r & l & x & _ & _ & _ & _ & Hrun).
  exists v, r, l, x. exact Hrun.
Defined.

(* ===================================================================== *)
(** * Further properties of the code                                      *)
(* ===================================================================== *)

(** ** Text: occurrences of a separator *)

Lemma string_app_assoc (a b c : string) : (a ++ b) ++ c = a ++ (b ++ c).
Proof. induction a as [|x a IH]; cbn; [reflexivity|now rewrite IH]. Qed.

Lemma string_app_empty_r (a : string) : a ++ "" = a.
Proof. induction a as [|x a IH]; cbn; [reflexivity|now rewrite IH]. Qed.

Lemma string_app_length (a b : string) :
  String.length (a ++ b) = String.length a + String.length b.
Proof. induction a as [|x a IH]; cbn; [reflexivity|now rewrite IH]. Qed.

Lemma string_app_eq_empty (a b : string) : a ++ b = "" -> a = "" /\ b = "".
Proof. destruct a; cbn; [auto|discriminate]. Qed.

Lemma prefix_app (sep rest : string) : String.prefix sep (sep ++ rest) = true.
Proof.
  induction sep as [|c sep IH]; cbn.
  - now destruct rest.
  - destruct (Ascii.ascii_dec c c) as [_|Hne]; [exact IH|now destruct Hne].
Qed.

(** Two ways of cutting one text: the later cut leaves a suffix of what
    the earlier cut leaves. *)
Lemma app_later_cut (u a v y : string) :
  u ++ a = v ++ y -> String.length u <= String.length v ->
  exists z, a = z ++ y.
Proof.
  revert v. induction u as [|c u IH]; intros v Heq Hlen.
  - exists v. exact Heq.
  - destruct v as [|d v]; cbn in Hlen; [inversion Hlen|].
    cbn in Heq. injection Heq as _ Heq.
    apply (IH v Heq). now apply le_S_n.
Qed.

(** No occurrence of the separator: [split_once] finds none. *)
Lemma split_once_none (sep s : string) :
  split_once sep s = None -> forall a b, s <> a ++ sep ++ b.
Proof.
  induction s as [|c s IH]; intros Hnone a b Heq.
  - symmetry in Heq. apply string_app_eq_empty in Heq. destruct Heq as [_ Heq].
    apply string_app_eq_empty in Heq. destruct Heq as [-> _]. discriminate Hnone.
  - cbn [split_once] in Hnone.
    destruct (String.prefix sep (String c s)) eqn:Hp; [discriminate|].
    destruct (split_once sep s) as [[before after]|] eqn:Hrec; [discriminate|].
    destruct a as [|d a]; cbn in Heq.
    + rewrite Heq, prefix_app in Hp. discriminate.
    + injection Heq as _ Heq. exact (IH eq_refl a b Heq).
Qed.

(** The cut is at the first occurrence: the separator does not occur in
    the text before it. *)
Lemma split_once_first (sep s before after : string) :
  sep <> "" ->
  split_once sep s = Some (before, after) ->
  forall x y, before <> x ++ sep ++ y.
Proof.
  intros Hsep. revert before. induction s as [|c s IH]; intros before Hs x y Heq.
  - destruct sep; [now destruct Hsep|discriminate].
  - cbn [split_once] in Hs.
    destruct (String.prefix sep (String c s)) eqn:Hp.
    + injection Hs as <- _. symmetry in Heq.
      apply string_app_eq_empty in Heq. destruct Heq as [_ Heq].
      apply string_app_eq_empty in Heq. destruct Heq as [-> _]. now destruct Hsep.
    + destruct (split_once sep s) as [[b a]|] eqn:Hrec; [|discriminate].
      injection Hs as <- <-.
      destruct x as [|d x]; cbn in Heq.
      * apply split_once_correct in Hrec.
        assert (Hwhole : String c s = sep ++ (y ++ sep ++ a)).
        { rewrite Hrec. change (String c (b ++ sep ++ a)) with (String c b ++ sep ++ a).
          rewrite Heq. now rewrite string_app_assoc. }
        rewrite Hwhole, prefix_app in Hp. discriminate.
      * injection Heq as _ Heq. exact (IH b eq_refl x y Heq).
Qed.

(** An occurrence of the separator is found, and what follows it is kept
    in what follows the first occurrence. *)
Lemma split_once_some (sep s x y : string) :
  s = x ++ sep ++ y ->
  exists before after z, split_once sep s = Some (before, after) /\ after = z ++ y.
Proof.
  revert x. induction s as [|c s IH]; intros x Heq.
  - symmetry in Heq. apply string_app_eq_empty in Heq. destruct Heq as [-> Heq].
    apply string_app_eq_empty in Heq. destruct Heq as [-> ->].
    now exists "", "", "".
  - cbn [split_once].
    destruct (String.prefix sep (String c s)) eqn:Hp.
    + exists "", (drop (String.length sep) (String c s)).
      apply drop_prefix in Hp.
      destruct (app_later_cut sep (drop (String.length sep) (String c s)) (x ++ sep) y)
        as (z & Hz).
      * rewrite <- Hp, string_app_assoc. exact Heq.
      * rewrite string_app_length. apply Nat.le_add_l.
      * now exists z.
    + destruct x as [|d x]; cbn in Heq.
      * rewrite Heq, prefix_app in Hp. discriminate.
      * injection Heq as _ Heq.
        destruct (IH x Heq) as (before & after & z & -> & Hz).
        now exists (String c before), after, z.
Qed.

(** ** policy_mapping.py: [extract_necessary_text] *)

(** The three cuts behind a successful extraction. *)
Lemma extract_necessary_text_cuts (text section : string) :
  extract_necessary_text text = Ok section ->
  exists head after1 contents after2,
    split_once contents_marker text = Some (head, after1) /\
    split_once rule_marker after1 = Some (contents, after2) /\
    section = split_item0 help_marker after2.
Proof.
  unfold extract_necessary_text, split1_item1, rbind.
  fold contents_marker rule_marker help_marker.
  destruct (split_once contents_marker text) as [[head after1]|] eqn:H1; [|discriminate].
  destruct (split_once rule_marker after1) as [[contents after2]|] eqn:H2; [|discriminate].
  intros Heq. injection Heq as <-.
  now exists head, after1, contents, after2.
Qed.

(** X1. What [extract_necessary_text] returns is the part of the text after
    the first contents marker and, from there on, after the first rule
    marker, up to the first "Need help?" (or to the end when there is
    none); the returned part has no "Need help?" in it. *)
Theorem extract_necessary_text_section (text section : string) :
  extract_necessary_text text = Ok section ->
  exists head contents tail,
    text = head ++ contents_marker ++ contents ++ rule_marker ++ section ++ tail /\
    (forall x y, head <> x ++ contents_marker ++ y) /\
    (forall x y, contents <> x ++ rule_marker ++ y) /\
    (forall x y, section <> x ++ help_marker ++ y) /\
    (tail = "" \/ exists rest, tail = help_marker ++ rest).
Proof.
  intros Hok.
  destruct (extract_necessary_text_cuts text section Hok)
    as (head & after1 & contents & after2 & H1 & H2 & ->).
  unfold split_item0.
  pose proof (split_once_correct _ _ _ _ H1) as E1.
  pose proof (split_once_correct _ _ _ _ H2) as E2.
  assert (Hc : contents_marker <> "") by discriminate.
  assert (Hr : rule_marker <> "") by discriminate.
  assert (Hh : help_marker <> "") by discriminate.
  destruct (split_once help_marker after2) as [[body rest]|] eqn:H3.
  - pose proof (split_once_correct _ _ _ _ H3) as E3.
    exists head, contents, (help_marker ++ rest). repeat split.
    + now rewrite E1, E2, E3.
    + exact (split_once_first _ _ _ _ Hc H1).
    + exact (split_once_first _ _ _ _ Hr H2).
    + exact (split_once_first _ _ _ _ Hh H3).
    + right. now exists rest.
  - exists head, contents, "". repeat split.
    + now rewrite E1, E2, string_app_empty_r.
    + exact (split_once_first _ _ _ _ Hc H1).
    + exact (split_once_first _ _ _ _ Hr H2).
    + intros x y Heq. exact (split_once_none _ _ H3 x y Heq).
    + now left.
Qed.

(** X2. [extract_necessary_text] succeeds exactly on the texts that hold the
    contents marker and, somewhere after it, the rule marker; on every
    other text it raises [IndexError: list index out of range], and it
    raises nothing else. *)
Theorem extract_necessary_text_succeeds_iff (text : string) :
  ((exists section, extract_necessary_text text = Ok section) <->
   (exists head contents body,
      text = head ++ contents_marker ++ contents ++ rule_marker ++ body)) /\
  (forall e, extract_necessary_text text = Err e ->
             e = IndexError "list index out of range").
Proof.
  split; [split|].
  - intros (section & Hok).
    destruct (extract_necessary_text_cuts text section Hok)
      as (head & after1 & contents & after2 & H1 & H2 & _).
    apply split_once_correct in H1, H2.
    exists head, contents, after2. now rewrite H1, H2.
  - intros (head & contents & body & Heq).
    unfold extract_necessary_text, split1_item1, split_item0, rbind.
    fold contents_marker rule_marker help_marker.
    destruct (split_once_some contents_marker text head (contents ++ rule_marker ++ body) Heq)
      as (before & after1 & z & -> & Hafter).
    destruct (split_once_some rule_marker after1 (z ++ contents) body)
      as (before2 & after2 & z2 & -> & _).
    + now rewrite Hafter, string_app_assoc.
    + eexists. reflexivity.
  - intros e. unfold extract_necessary_text, split1_item1, split_item0, rbind.
    destruct (split_once _ text) as [[head after1]|]; [|now intros [= <-]].
    destruct (split_once _ after1) as [[contents after2]|]; [discriminate|now intros [= <-]].
Qed.

(** ** policy_mapping.py: [get_policy_markdown] *)

Lemma dict_get_set {V} (d : dict V) (k k' : string) (v : V) :
  dict_get (dict_set k v d) k' = if String.eqb k' k then Some v else dict_get d k'.
Proof.
  induction d as [|[k0 v0] d IH]; cbn.
  - reflexivity.
  - destruct (String.eqb_spec k k0) as [->|Hne]; cbn.
    + now destruct (String.eqb k' k0).
    + destruct (String.eqb_spec k' k0) as [->|Hne'].
      * now rewrite eqb_neq_false by congruence.
      * exact IH.
Qed.

Lemma dict_get_none {V} (d : dict V) (k : string) :
  ~ In k (dict_keys d) -> dict_get d k = None.
Proof.
  induction d as [|[k0 v0] d IH]; cbn; intros Hk; [reflexivity|].
  rewrite eqb_neq_false by (intros ->; apply Hk; now left).
  apply IH. intros Hin. apply Hk. now right.
Qed.

Section PolicyMarkdownLookups.
Context `{Builtins} `{PolicySource}.

(** What is returned is the [output] the loop leaves behind. *)
Lemma get_policy_markdown_output (policies : list string) :
  get_policy_markdown policies = Ok (snd (for_ policies gather [])).
Proof.
  unfold get_policy_markdown, finally_return, get, try_except, raise. cbn [fst].
  now destruct (for_ policies gather []) as [[u|e] output].
Qed.

Lemma for_gather_stops (before after : list string) (policy : string) (e : exn)
    (output : dict string) :
  describe policy = Err e ->
  snd (for_ (before ++ policy :: after) gather output) = snd (for_ before gather output).
Proof.
  intros Hfail. revert output. induction before as [|p before IH]; intros output; cbn.
  - unfold bind. now rewrite gather_describe, Hfail.
  - unfold bind. rewrite gather_describe.
    destruct (describe p) as [text|e']; [apply IH|reflexivity].
Qed.

(** A label that is no policy of the catalog has no page to fetch. *)
Lemma describe_unknown (policy : string) :
  ~ In policy Schema.POLICY_ITEMS -> describe policy = Err (KeyError policy).
Proof.
  intros Hout. unfold describe, getitem, rbind.
  now rewrite (dict_get_none mapping_dict policy Hout).
Qed.

(** X3. The labels after one whose description cannot be had are dropped
    without notice: the result is that of the labels before it.  A label
    that is not in the catalog is such a label (its [KeyError] is
    swallowed with the rest). *)
Theorem get_policy_markdown_drops_after_failure (before after : list string)
    (policy : string) :
  ((exists e, describe policy = Err e) \/ ~ In policy Schema.POLICY_ITEMS) ->
  get_policy_markdown (before ++ policy :: after) = get_policy_markdown before.
Proof.
  intros Hfail.
  assert (Herr : exists e, describe policy = Err e).
  { destruct Hfail as [Herr|Hout]; [exact Herr|].
    eexists. now apply describe_unknown. }
  destruct Herr as (e & Herr).
  rewrite !get_policy_markdown_output. f_equal.
  now apply for_gather_stops with (e := e).
Qed.

Lemma for_gather_sound (policies : list string) (output : dict string)
    (policy text : string) :
  dict_get (snd (for_ policies gather output)) policy = Some text ->
  (In policy policies /\ describe policy = Ok text) \/
  dict_get output policy = Some text.
Proof.
  revert output. induction policies as [|p policies IH]; intros output; cbn.
  - now right.
  - unfold bind. rewrite gather_describe.
    destruct (describe p) as [t|e] eqn:Hd; [|now right].
    intros Hget. destruct (IH _ Hget) as [[Hin Hdesc]|Hprev].
    + left. split; [now right|exact Hdesc].
    + rewrite dict_get_set in Hprev.
      destruct (String.eqb_spec policy p) as [->|Hne].
      * injection Hprev as <-. left. split; [now left|exact Hd].
      * now right.
Qed.

(** X4. Whatever [get_policy_markdown] returns, each entry of it belongs to
    one of the labels asked for and holds the text extracted from that
    label's page: no entry for another label, no text of another page. *)
Theorem get_policy_markdown_entries_sound (policies : list string) :
  exists output,
    get_policy_markdown policies = Ok output /\
    forall policy text,
      dict_get output policy = Some text ->
      In policy policies /\ describe policy = Ok text.
Proof.
  exists (snd (for_ policies gather [])). split.
  - apply get_policy_markdown_output.
  - intros policy text Hget.
    destruct (for_gather_sound policies [] policy text Hget) as [Hok|Hempty];
      [exact Hok|discriminate].
Qed.

Lemma for_gather_complete (policies : list string) (output : dict string) :
  (forall p, In p policies -> exists t, describe p = Ok t) ->
  forall policy,
    (In policy policies ->
     exists text, describe policy = Ok text /\
                  dict_get (snd (for_ policies gather output)) policy = Some text) /\
    (~ In policy policies ->
     dict_get (snd (for_ policies gather output)) policy = dict_get output policy).
Proof.
  revert output. induction policies as [|p policies IH]; intros output Hall policy.
  - split; [intros []|reflexivity].
  - cbn [for_]. unfold bind. rewrite gather_describe.
    destruct (Hall p (or_introl eq_refl)) as (t & Hd). rewrite Hd.
    assert (Hall' : forall q, In q policies -> exists t, describe q = Ok t).
    { intros q Hq. apply Hall. now right. }
    destruct (IH (dict_set p t output) Hall' policy) as [Hin Hout].
    split.
    + intros Hp.
      destruct (in_dec string_dec policy policies) as [Hlater|Hnot]; [now apply Hin|].
      destruct Hp as [->|Hp]; [|contradiction].
      exists t. split; [exact Hd|].
      rewrite (Hout Hnot), dict_get_set. now rewrite String.eqb_refl.
    + intros Hnot. rewrite Hout by (intros Hin'; apply Hnot; now right).
      rewrite dict_get_set.
      rewrite eqb_neq_false; [reflexivity|]. intros ->. apply Hnot. now left.
Qed.

(** X5. When the description of every label asked for can be had, the
    result has an entry for every one of them, holding that description
    (a label asked for twice included). *)
Theorem get_policy_markdown_complete (policies : list string) :
  (forall policy, In policy policies -> exists text, describe policy = Ok text) ->
  exists output,
    get_policy_markdown policies = Ok output /\
    forall policy,
      In policy policies ->
      exists text, describe policy = Ok text /\ dict_get output policy = Some text.
Proof.
  intros Hall. exists (snd (for_ policies gather [])). split.
  - apply get_policy_markdown_output.
  - intros policy Hin. now apply (for_gather_complete policies [] Hall policy).
Qed.

End PolicyMarkdownLookups.

(** ** ai_analyzer.py: the answer, the request, the outcome *)

Lemma last_item_app {A} (l : list A) (x : A) : last_item (l ++ [x]) = Some x.
Proof.
  induction l as [|y l IH]; [reflexivity|].
  cbn [app last_item]. rewrite IH. now destruct (l ++ [x])%list eqn:Hl; [destruct l|].
Qed.

Lemma last_item_some {A} (l : list A) (x : A) :
  last_item l = Some x -> exists l', l = (l' ++ [x])%list.
Proof.
  induction l as [|y l IH]; [discriminate|].
  destruct l as [|z l].
  - intros Heq. injection Heq as ->. now exists [].
  - intros Heq. destruct (IH Heq) as (l' & ->). now exists (y :: l').
Qed.

(** X6. The text handed to the parser is read off the last part of the
    answer alone: it is defined exactly when the answer is a list whose
    last part is a dict, and is then that dict's ["text"] entry, or the
    empty string when the dict has none.  The parts before the last one
    have no influence; an answer that is a plain string or an empty list
    gives no text. *)
Theorem output_text_of_last_part (c : content) (text : json) :
  output_text_of c = Ok text <->
  exists parts d,
    c = ContentList (parts ++ [PartDict d]) /\
    text = match dict_get d "text" with Some v => v | None => JString "" end.
Proof.
  split.
  - destruct c as [[|ch s]|parts]; cbn; try discriminate.
    destruct (last_item parts) as [[s|d]|] eqn:Hlast; try discriminate.
    apply last_item_some in Hlast. destruct Hlast as (parts' & ->).
    intros Heq. exists parts', d. split; [reflexivity|].
    destruct (dict_get d "text"); now injection Heq as <-.
  - intros (parts & d & -> & ->). cbn. rewrite last_item_app.
    now destruct (dict_get d "text").
Qed.

(** X7. The tools attached to the request follow the prefix of the model
    name: the web search for names that start with "openai:", the URL
    context for names that start with "gemini", and never both, so at most
    one tool is attached. *)
Theorem tools_of_model_prefix (model_name : string) :
  (In web_search_preview (tools_of model_name) <->
   String.prefix "openai:" model_name = true) /\
  (In url_context (tools_of model_name) <->
   String.prefix "gemini" model_name = true) /\
  List.length (tools_of model_name) <= 1.
Proof.
  unfold tools_of.
  destruct (String.prefix "openai:" model_name) eqn:Ho;
    destruct (String.prefix "gemini" model_name) eqn:Hg; cbn.
  - apply drop_prefix in Ho. rewrite Ho in Hg. discriminate Hg.
  - repeat split; auto; try discriminate; intros [Heq|[]]; discriminate.
  - repeat split; auto; try discriminate; intros [Heq|[]]; discriminate.
  - repeat split; auto; try discriminate; intros [].
Qed.

Lemma policy_prompt_fold (policy_markdown : dict string) (prompt : string) :
  fold_left
    (fun policy_prompt item =>
       policy_prompt ++ "
            <policy_name>" ++ fst item ++ "</policy_name>
            <policy_description>" ++ snd item ++ "</policy_description>
            ")
    policy_markdown prompt
  = prompt ++ String.concat "" (map (fun item => descriptions_block (fst item) (snd item))
                                    policy_markdown).
Proof.
  revert prompt. induction policy_markdown as [|item rest IH]; intros prompt.
  - cbn. now rewrite string_app_empty_r.
  - cbn [fold_left map]. rewrite IH.
    assert (Hconcat : forall x l, String.concat "" (x :: l) = x ++ String.concat "" l).
    { intros x [|y l]; cbn; [now rewrite string_app_empty_r|reflexivity]. }
    rewrite Hconcat, string_app_assoc. reflexivity.
Qed.

Lemma dict_get_split {V} (d : dict V) (k : string) (v : V) :
  dict_get d k = Some v -> exists d1 d2, d = (d1 ++ (k, v) :: d2)%list.
Proof.
  induction d as [|[k0 v0] d IH]; cbn; [discriminate|].
  destruct (String.eqb_spec k k0) as [->|Hne].
  - intros Heq. injection Heq as ->. now exists [], d.
  - intros Hget. destruct (IH Hget) as (d1 & d2 & ->). now exists ((k0, v0) :: d1), d2.
Qed.

Lemma concat_blocks_app (l1 l2 : list string) :
  String.concat "" (l1 ++ l2) = String.concat "" l1 ++ String.concat "" l2.
Proof.
  assert (Hcons : forall x l, String.concat "" (x :: l) = x ++ String.concat "" l).
  { intros x [|y l]; cbn; [now rewrite string_app_empty_r|reflexivity]. }
  induction l1 as [|x l1 IH].
  - reflexivity.
  - change ((x :: l1) ++ l2)%list with (x :: (l1 ++ l2))%list.
    now rewrite !Hcons, IH, string_app_assoc.
Qed.

(** X8. The descriptions block of the instructions opens and closes with
    its tag, and between the tags it holds, for every entry of the policy
    texts, the name and the description of that entry in their tags; with
    no entry the block is the pair of tags alone. *)
Theorem policy_prompt_holds_entry (policy_markdown : dict string)
    (policy markdown : string) :
  dict_get policy_markdown policy = Some markdown ->
  exists earlier later,
    policy_prompt_of policy_markdown =
    "<policies_description>" ++ earlier
      ++ descriptions_block policy markdown
      ++ later ++ "</policies_description>".
Proof.
  intros Hget. apply dict_get_split in Hget. destruct Hget as (d1 & d2 & ->).
  unfold policy_prompt_of. rewrite policy_prompt_fold, map_app, concat_blocks_app.
  cbn [map fst snd].
  exists (String.concat "" (map (fun item => descriptions_block (fst item) (snd item)) d1)),
         (String.concat "" (map (fun item => descriptions_block (fst item) (snd item)) d2)).
  change (?x :: ?l) with ([x] ++ l)%list at 1.
  rewrite concat_blocks_app. cbn [String.concat].
  now rewrite !string_app_assoc.
Qed.

Section AnalyzerOutcome.
Context `{Builtins} `{PolicySource} `{Pydantic} `{ChatModel}.

(** X9. A policy source that fails at the first label does not stop the
    analysis: the one request to the model is still made, with the class
    built from all the labels and an empty descriptions block. *)
Theorem analysis_proceeds_without_descriptions (url first : string)
    (others : list string) (api_key model_name : string) (e : exn) :
  describe first = Err e ->
  invoke_model url (first :: others) api_key model_name =
  invoke
    {| model := model_name;
       api_key_arg := api_key;
       response_schema :=
         model_json_schema (create_policy_violation_analysis_model (first :: others));
       response_mime_type := "application/json";
       thinking_budget := 1024 |}
    (tools_of model_name)
    (system_prompt_of (create_policy_violation_analysis_model (first :: others))
       "<policies_description></policies_description>")
    (user_prompt_of url).
Proof.
  intros Hfail. unfold invoke_model.
  assert (Hnone : get_policy_markdown (first :: others) = Ok []).
  { rewrite get_policy_markdown_output. cbn [for_]. unfold bind.
    now rewrite gather_describe, Hfail. }
  rewrite Hnone. reflexivity.
Qed.

(** X10. [analyze_with_ai] has two outcomes only.  It returns an instance
    with the four fields [violated_policy], [reason],
    [location_of_violation] and [xpath], in this order, the first of them
    one of the labels; or it raises a plain [Exception] whose message
    starts with "AI analysis error: ".  No [KeyError], [IndexError] or
    [AttributeError] of the steps inside leaves it as such. *)
Theorem analyze_with_ai_outcomes (url : string) (labels : list string)
    (api_key model_name : string) :
  (exists v r l x,
     analyze_with_ai url labels api_key model_name =
       Ok [ ("violated_policy", v); ("reason", r);
            ("location_of_violation", l); ("xpath", x) ] /\
     In v labels) \/
  (exists message,
     analyze_with_ai url labels api_key model_name =
       Err (Exception ("AI analysis error: " ++ message))).
Proof.
  destruct (analyze_with_ai url labels api_key model_name) as [analysis|e] eqn:Hrun.
  - left. apply analyze_with_ai_ok_inv in Hrun.
    destruct Hrun as (c & text & document & _ & _ & _ & Hval).
    apply model_validate_ok_inv in Hval.
    destruct Hval as (members & v & r & l & x & _ & _ & Hin & _ & _ & _ & ->).
    now exists v, r, l, x.
  - right. rewrite analyze_with_ai_cases in Hrun.
    destruct (invoke_model url labels api_key model_name) as [c|e1].
    + destruct (output_text_of c) as [text|e2].
      * destruct (model_validate_json _ text) as [analysis|e3]; [discriminate|].
        injection Hrun as <-. eexists. reflexivity.
      * injection Hrun as <-. eexists. reflexivity.
    + injection Hrun as <-. eexists. reflexivity.
Qed.

End AnalyzerOutcome.

(** ** screen_shot.py: warnings and release *)

Section CaptureLog.
Context `{Builtins} `{Playwright} `{Host}.

Lemma anchor_warning_is_no_capture_warning (x url : string) (e e' : exn) :
  anchor_warning x e <> capture_warning url e'.
Proof. unfold anchor_warning, capture_warning. cbn. discriminate. Qed.

(** Every path over a rendered page ends in the full-page capture or in
    the release after a region or page capture, after at most the one
    warning about the anchor. *)
Lemma take_xpath_screenshot_paths (url : string) (anchor : option string)
    (page : Page) (emitted : warnings) :
  open_page url = Ok page ->
  (exists b, take_xpath_screenshot url anchor emitted = release page url b emitted) \/
  take_xpath_screenshot url anchor emitted = full_page page url emitted \/
  (exists x e,
     take_xpath_screenshot url anchor emitted =
     full_page page url (emitted ++ [anchor_warning x e])%list).
Proof.
  intros Hopen.
  destruct (truthy_opt_str anchor) eqn:Htruthy.
  - destruct anchor as [x|]; [|discriminate]. cbn in Htruthy.
    destruct (query page ("xpath=" ++ x)) as [[|region others]|e] eqn:Hq.
    + rewrite (take_xpath_screenshot_no_match url x page emitted Hopen Htruthy Hq).
      destruct (page_screenshot page) as [b|e]; [left; now exists b|].
      right. right. now exists x, e.
    + destruct (region_screenshot page region) as [b|e] eqn:Hr.
      * left. exists b.
        apply (take_xpath_screenshot_region url x page region others b emitted); assumption.
      * right. right. exists x, e.
        apply (take_xpath_screenshot_region_fails url x page region others e emitted);
          assumption.
    + right. right. exists x, e.
      apply (take_xpath_screenshot_malformed url x page e emitted); assumption.
  - right. left. now apply take_xpath_screenshot_no_anchor.
Qed.

Lemma release_outcome (page : Page) (url : string) (b : bytes) (log : warnings) :
  release page url b log = (Ok (Some b), log) \/
  exists e, release page url b log = (Ok None, (log ++ [capture_warning url e])%list).
Proof.
  unfold release. destruct (browser_close page) as [u|e]; [now left|right; now exists e].
Qed.

Lemma full_page_outcome (page : Page) (url : string) (log : warnings) :
  (exists b, full_page page url log = (Ok (Some b), log)) \/
  exists e, full_page page url log = (Ok None, (log ++ [capture_warning url e])%list).
Proof.
  unfold full_page. destruct (page_screenshot page) as [b|e].
  - destruct (release_outcome page url b log) as [Hok|Hfail]; [left; now exists b|now right].
  - right. now exists e.
Qed.

(** X11. A capture only adds to the warnings, at most two of them, and it
    is never absent in silence: the result is [None] exactly when the last
    warning added is the "Screenshot error" warning of that URL. *)
Theorem capture_absence_is_warned (url : string) (anchor : option string)
    (emitted : warnings) :
  exists shot added,
    take_xpath_screenshot url anchor emitted = (Ok shot, (emitted ++ added)%list) /\
    List.length added <= 2 /\
    (shot = None <->
     exists earlier e, added = (earlier ++ [capture_warning url e])%list).
Proof.
  destruct (open_page url) as [page|e] eqn:Hopen.
  - assert (Hrelease : forall b log added0,
              log = (emitted ++ added0)%list -> added0 = [] ->
              exists shot added,
                release page url b log = (Ok shot, (emitted ++ added)%list) /\
                List.length added <= 2 /\
                (shot = None <->
                 exists earlier e, added = (earlier ++ [capture_warning url e])%list)).
    { intros b log added0 -> ->. rewrite app_nil_r.
      destruct (release_outcome page url b emitted) as [->|(e & ->)].
      - exists (Some b), []. rewrite app_nil_r. repeat split; auto.
        + discriminate.
        + intros (earlier & e & Heq). now destruct earlier.
      - exists None, [capture_warning url e]. repeat split; auto.
        intros _. now exists [], e. }
    assert (Hfull : forall log added0,
              log = (emitted ++ added0)%list ->
              (added0 = [] \/ exists x e, added0 = [anchor_warning x e]) ->
              exists shot added,
                full_page page url log = (Ok shot, (emitted ++ added)%list) /\
                List.length added <= 2 /\
                (shot = None <->
                 exists earlier e, added = (earlier ++ [capture_warning url e])%list)).
    { intros log added0 -> Hadded0.
      destruct (full_page_outcome page url (emitted ++ added0)%list) as [(b & ->)|(e & ->)].
      - exists (Some b), added0. repeat split.
        + destruct Hadded0 as [->|(x & e & ->)]; cbn; auto.
        + discriminate.
        + intros (earlier & e & Heq).
          destruct Hadded0 as [->|(x & e0 & ->)].
          * now destruct earlier.
          * destruct earlier as [|w [|w' earlier]]; try discriminate;
              injection Heq as Heq;
              now apply anchor_warning_is_no_capture_warning in Heq.
      - exists None, (added0 ++ [capture_warning url e])%list. repeat split.
        + now rewrite app_assoc.
        + destruct Hadded0 as [->|(x & e0 & ->)]; cbn; auto.
        + intros _. now exists added0, e. }
    destruct (take_xpath_screenshot_paths url anchor page emitted Hopen)
      as [(b & ->)|[->|(x & e & ->)]].
    + apply (Hrelease b emitted []); [now rewrite app_nil_r|reflexivity].
    + apply (Hfull emitted []); [now rewrite app_nil_r|now left].
    + apply (Hfull _ [anchor_warning x e]); [reflexivity|right; now exists x, e].
  - rewrite (take_xpath_screenshot_unreachable url anchor emitted e Hopen).
    exists None, [capture_warning url e]. repeat split; auto.
    intros _. now exists [], e.
Qed.

(** X12. When the browser cannot be closed the image already taken is
    thrown away: on a rendered page whose [browser.close()] raises, the
    capture is absent and the caller of [take_screenshot] gets [None],
    whatever the anchor. *)
Theorem close_failure_discards_image (url : string) (anchor : option string)
    (page : Page) (e : exn) (emitted : warnings) :
  open_page url = Ok page ->
  browser_close page = Err e ->
  fst (take_xpath_screenshot url anchor emitted) = Ok None /\
  fst (take_screenshot url anchor emitted) = Ok None.
Proof.
  intros Hopen Hclose.
  assert (Hrelease : forall b log, fst (release page url b log) = Ok None).
  { intros b log. unfold release. now rewrite Hclose. }
  assert (Hfull : forall log, fst (full_page page url log) = Ok None).
  { intros log. unfold full_page.
    destruct (page_screenshot page) as [b|e']; [apply Hrelease|reflexivity]. }
  assert (Hcapture : fst (take_xpath_screenshot url anchor emitted) = Ok None).
  { destruct (take_xpath_screenshot_paths url anchor page emitted Hopen)
      as [(b & ->)|[->|(x & e' & ->)]]; auto. }
  split; [exact Hcapture|].
  rewrite take_screenshot_cases.
  destruct (take_xpath_screenshot url anchor emitted) as [[[[|b bs]|]|e'] emitted'];
    cbn in *; try reflexivity; discriminate.
Qed.

(** An anchor that is the empty string is treated as no anchor: it is
    never resolved, and the call does what it does for [None]. *)
Lemma empty_anchor_is_no_anchor (url : string) (emitted : warnings) :
  take_xpath_screenshot url (Some "") emitted = take_xpath_screenshot url None emitted /\
  take_screenshot url (Some "") emitted = take_screenshot url None emitted.
Proof.
  split; [reflexivity|].
  rewrite !take_screenshot_cases. reflexivity.
Qed.

End CaptureLog.

(** ** main.py: the submitted form *)

Import PyStr.

Lemma split_char_nonempty (c : ascii) (s : string) : split_char c s <> [].
Proof.
  destruct s as [|d s]; cbn; [discriminate|].
  destruct (Ascii.eqb d c); [discriminate|].
  destruct (split_char c s); discriminate.
Qed.

(** No piece of a split holds the separator. *)
Lemma split_char_pieces (c : ascii) (s piece : string) :
  In piece (split_char c s) -> PyStr.contains_char c piece = false.
Proof.
  revert piece. induction s as [|d s IH]; intros piece; cbn.
  - intros [<-|[]]. reflexivity.
  - destruct (Ascii.eqb d c) eqn:Hd.
    + intros [<-|Hin]; [reflexivity|now apply IH].
    + destruct (split_char c s) as [|first pieces] eqn:Hs.
      * intros [<-|[]]. cbn. now rewrite Hd.
      * intros [<-|Hin].
        -- cbn. rewrite Hd. apply IH. now left.
        -- apply IH. now right.
Qed.

(** Splitting a text at a separator that stands between two parts gives
    the pieces of the first part followed by those of the second. *)
Lemma split_char_app (c : ascii) (first second : string) :
  split_char c (first ++ String c second)
  = (split_char c first ++ split_char c second)%list.
Proof.
  induction first as [|d first IH]; cbn [append split_char].
  - now rewrite Ascii.eqb_refl.
  - rewrite IH. destruct (Ascii.eqb d c); [reflexivity|].
    destruct (split_char c first) as [|piece pieces] eqn:Hs.
    + now destruct (split_char_nonempty _ _ Hs).
    + reflexivity.
Qed.

(** A text without the separator is its own single piece. *)
Lemma split_char_no_separator (c : ascii) (s : string) :
  contains_char c s = false -> split_char c s = [s].
Proof.
  induction s as [|d s IH]; cbn [contains_char split_char]; [reflexivity|].
  intros Hno. apply Bool.orb_false_elim in Hno. destruct Hno as [Hd Hs].
  now rewrite Hd, (IH Hs).
Qed.

Section StripFacts.
Context `{CharClass}.

Lemma lstrip_empty_iff (s : string) : lstrip s = "" <-> all_space s = true.
Proof.
  induction s as [|c s IH]; cbn; [tauto|].
  destruct (isspace c); cbn; [exact IH|split; discriminate].
Qed.

Lemma rstrip_empty_iff (s : string) : rstrip s = "" <-> all_space s = true.
Proof.
  induction s as [|c s IH]; [cbn; tauto|].
  cbn [rstrip all_space]. destruct (rstrip s) as [|d kept].
  - rewrite (proj1 IH eq_refl). destruct (isspace c); cbn; split; auto; discriminate.
  - split; [discriminate|]. intros Hall. apply andb_prop in Hall.
    destruct Hall as [_ Hall]. apply IH in Hall. discriminate.
Qed.

Lemma all_space_lstrip (s : string) : all_space (lstrip s) = all_space s.
Proof.
  induction s as [|c s IH]; cbn; [reflexivity|].
  destruct (isspace c) eqn:Hc; cbn; [exact IH|now rewrite Hc].
Qed.

Lemma strip_empty_iff (s : string) : strip s = "" <-> all_space s = true.
Proof. unfold strip. now rewrite rstrip_empty_iff, all_space_lstrip. Qed.

Lemma rstrip_cons (c : ascii) (s : string) :
  rstrip (String c s) =
  match rstrip s with
  | EmptyString => if isspace c then EmptyString else String c EmptyString
  | kept => String c kept
  end.
Proof. reflexivity. Qed.

Lemma rstrip_idempotent (s : string) : rstrip (rstrip s) = rstrip s.
Proof.
  induction s as [|c s IH]; [reflexivity|].
  rewrite (rstrip_cons c s). destruct (rstrip s) as [|d kept] eqn:Hr.
  - destruct (isspace c) eqn:Hc; [reflexivity|].
    rewrite rstrip_cons. cbn [rstrip]. now rewrite Hc.
  - now rewrite rstrip_cons, IH.
Qed.

(** What [lstrip] leaves is empty or starts with a character that is no
    whitespace, and [rstrip] keeps that first character. *)
Lemma lstrip_rstrip_lstrip (s : string) : lstrip (rstrip (lstrip s)) = rstrip (lstrip s).
Proof.
  induction s as [|c s IH]; [reflexivity|].
  cbn [lstrip]. destruct (isspace c) eqn:Hc; [exact IH|].
  rewrite rstrip_cons. destruct (rstrip s) as [|d kept]; rewrite ?Hc; cbn [lstrip];
    now rewrite Hc.
Qed.

Lemma strip_idempotent (s : string) : strip (strip s) = strip s.
Proof. unfold strip. now rewrite lstrip_rstrip_lstrip, rstrip_idempotent. Qed.

Lemma contains_char_lstrip (c : ascii) (s : string) :
  contains_char c s = false -> contains_char c (lstrip s) = false.
Proof.
  induction s as [|d s IH]; cbn; [auto|].
  intros Hno. apply Bool.orb_false_elim in Hno. destruct Hno as [Hd Hs].
  destruct (isspace d); [now apply IH|]. cbn. now rewrite Hd, Hs.
Qed.

Lemma contains_char_rstrip (c : ascii) (s : string) :
  contains_char c s = false -> contains_char c (rstrip s) = false.
Proof.
  induction s as [|d s IH]; [auto|].
  cbn [contains_char]. intros Hno.
  apply Bool.orb_false_elim in Hno. destruct Hno as [Hd Hs].
  specialize (IH Hs). rewrite rstrip_cons. destruct (rstrip s) as [|d' kept].
  - destruct (isspace d); cbn [contains_char]; [reflexivity|now rewrite Hd].
  - cbn [contains_char] in *. now rewrite Hd, IH.
Qed.

(** A text is blank exactly when each of its lines is. *)
Lemma all_space_lines (s : string) :
  all_space s = forallb all_space (split_char "010"%char s).
Proof.
  induction s as [|d s IH]; [reflexivity|].
  cbn [split_char all_space].
  destruct (Ascii.eqb_spec d "010"%char) as [->|Hd].
  - cbn. now rewrite isspace_line_feed, IH.
  - rewrite IH. destruct (split_char "010"%char s) as [|piece pieces] eqn:Hs.
    + now destruct (split_char_nonempty _ _ Hs).
    + cbn. now rewrite Bool.andb_assoc.
Qed.

Lemma parse_urls_empty_iff (url_input : string) :
  parse_urls url_input = [] <-> strip url_input = "".
Proof.
  rewrite strip_empty_iff, all_space_lines. unfold parse_urls.
  induction (split_char "010"%char url_input) as [|piece pieces IH]; cbn.
  - tauto.
  - unfold truthy_str at 1.
    destruct (String.eqb_spec (strip piece) "") as [Hblank|Hurl]; cbn.
    + rewrite (proj1 (strip_empty_iff piece) Hblank). exact IH.
    + split; [discriminate|]. intros Hall. apply andb_prop in Hall.
      destruct Hall as [Hall _]. now apply strip_empty_iff in Hall.
Qed.

(** The list comprehension, read as membership. *)
Lemma parse_urls_entries (url_input url : string) :
  In url (parse_urls url_input) <->
  url <> "" /\
  exists line, In line (split_char "010"%char url_input) /\ url = strip line.
Proof.
  unfold parse_urls. rewrite in_map_iff. split.
  - intros (line & <- & Hin). apply filter_In in Hin. destruct Hin as [Hin Hkeep].
    split; [now apply truthy_str_nonempty|now exists line].
  - intros (Hurl & line & Hin & ->). exists line. split; [reflexivity|].
    apply filter_In. split; [exact Hin|now apply truthy_str_nonempty].
Qed.

(** X13. The URLs of a text box are taken line by line.  Of two texts
    joined by a line feed they are the URLs of the first followed by the
    URLs of the second, so the order of the lines and a URL entered twice
    are kept; a single line gives its stripped text as the one URL, or no
    URL when it is blank. *)
Theorem parse_urls_line_by_line :
  (forall first second,
     parse_urls (first ++ nl ++ second) = (parse_urls first ++ parse_urls second)%list) /\
  (forall line,
     contains_char "010"%char line = false ->
     parse_urls line = if all_space line then [] else [strip line]).
Proof.
  split.
  - intros first second. unfold parse_urls.
    change (nl ++ second) with (String "010"%char second).
    now rewrite split_char_app, filter_app, map_app.
  - intros line Hno. unfold parse_urls.
    rewrite (split_char_no_separator _ _ Hno). cbn [filter map].
    unfold truthy_str. destruct (all_space line) eqn:Hall.
    + apply strip_empty_iff in Hall. now rewrite Hall.
    + destruct (String.eqb_spec (strip line) "") as [Hblank|Hurl]; [|reflexivity].
      apply strip_empty_iff in Hblank. congruence.
Qed.

(** X14. The URLs taken from the text box are clean: stripping one again
    changes nothing, and none holds a line feed. *)
Theorem parse_urls_clean (url_input url : string) :
  In url (parse_urls url_input) ->
  strip url = url /\ contains_char "010"%char url = false.
Proof.
  unfold parse_urls. rewrite in_map_iff.
  intros (line & <- & Hin). apply filter_In in Hin. destruct Hin as [Hin _].
  split; [apply strip_idempotent|].
  unfold strip. apply contains_char_rstrip, contains_char_lstrip.
  now apply split_char_pieces in Hin.
Qed.

(** X15. The checks of a submission, in their order: an empty key, then an
    empty selection, then a blank text box are refused, each with its own
    message; everything else is accepted with the URLs of the text box,
    of which there is at least one.  The message "No valid URLs found" is
    never given: a text box that is not blank has a line that is not. *)
Theorem check_submission_cases (api_key : string) (selected_policies : list string)
    (url_input : string) :
  (api_key = "" ->
   check_submission api_key selected_policies url_input
   = Rejected "Please enter an API key") /\
  (api_key <> "" -> selected_policies = [] ->
   check_submission api_key selected_policies url_input
   = Rejected "Please select at least one policy to check") /\
  (api_key <> "" -> selected_policies <> [] -> all_space url_input = true ->
   check_submission api_key selected_policies url_input
   = Rejected "Please enter at least one URL") /\
  (api_key <> "" -> selected_policies <> [] -> all_space url_input = false ->
   check_submission api_key selected_policies url_input
   = Accepted (parse_urls url_input) /\ parse_urls url_input <> []) /\
  check_submission api_key selected_policies url_input
  <> Rejected "No valid URLs found".
Proof.
  assert (Hkey : api_key <> "" -> truthy_str api_key = true)
    by (intros Hk; now apply truthy_str_nonempty).
  assert (Hblank : all_space url_input = true -> truthy_str (strip url_input) = false).
  { intros Hall. apply strip_empty_iff in Hall. now rewrite Hall. }
  assert (Hfilled : all_space url_input = false ->
            truthy_str (strip url_input) = true /\ parse_urls url_input <> []).
  { intros Hall.
    assert (Hne : strip url_input <> "").
    { intros Hs. apply strip_empty_iff in Hs. congruence. }
    split; [now apply truthy_str_nonempty|].
    intros Hnone. now apply parse_urls_empty_iff in Hnone. }
  unfold check_submission. split; [|split; [|split; [|split]]].
  - now intros ->.
  - intros Hk ->. now rewrite (Hkey Hk).
  - intros Hk Hsel Hall. rewrite (Hkey Hk), (Hblank Hall).
    now destruct selected_policies.
  - intros Hk Hsel Hall.
    destruct (Hfilled Hall) as [Htruthy Hurls]. rewrite (Hkey Hk), Htruthy.
    destruct selected_policies; [now destruct Hsel|].
    cbn. split; [|exact Hurls]. destruct (parse_urls url_input); [now destruct Hurls|reflexivity].
  - destruct (truthy_str api_key); cbn; [|discriminate].
    destruct selected_policies; [discriminate|].
    destruct (all_space url_input) eqn:Hall.
    + rewrite (Hblank eq_refl). discriminate.
    + destruct (Hfilled eq_refl) as [-> Hurls]. cbn.
      destruct (parse_urls url_input); [now destruct Hurls|discriminate].
Qed.

End StripFacts.

Lemma fold_append_filter {A} (keep : A -> bool) (l acc : list A) :
  fold_left (fun selected x => if keep x then (selected ++ [x])%list else selected) l acc
  = (acc ++ filter keep l)%list.
Proof.
  revert acc. induction l as [|x l IH]; intros acc; cbn.
  - now rewrite app_nil_r.
  - rewrite IH. destruct (keep x); [now rewrite <- app_assoc|reflexivity].
Qed.

Lemma POLICY_ITEMS_NoDup : NoDup Schema.POLICY_ITEMS.
Proof.
  unfold Schema.POLICY_ITEMS.
  repeat (constructor; [cbn; intuition discriminate|]). constructor.
Qed.

(** X16. Whatever boxes are ticked, the selection is the ticked policies in
    the order of the catalog, each once, and each of them has a page in
    [mapping_dict], so that fetching its description never fails on a
    missing key.  With every box ticked, as they are at the start, the
    selection is the whole catalog. *)
Theorem select_policies_within_catalog (checkbox : string -> bool) :
  select_policies checkbox = filter checkbox Schema.POLICY_ITEMS /\
  NoDup (select_policies checkbox) /\
  (forall policy, In policy (select_policies checkbox) ->
     checkbox policy = true /\ In policy Schema.POLICY_ITEMS /\
     exists page, getitem mapping_dict policy = Ok page) /\
  select_policies (fun _ => true) = Schema.POLICY_ITEMS.
Proof.
  assert (Hfilter : forall keep, select_policies keep = filter keep Schema.POLICY_ITEMS).
  { intros keep. unfold select_policies. now rewrite fold_append_filter. }
  split; [apply Hfilter|]. split; [|split].
  - rewrite Hfilter. apply NoDup_filter, POLICY_ITEMS_NoDup.
  - intros policy Hin. rewrite Hfilter in Hin. apply filter_In in Hin.
    destruct Hin as [Hin Hticked]. repeat split; try assumption.
    cbn in Hin.
    repeat (destruct Hin as [<-|Hin]; [eexists; reflexivity|]). destruct Hin.
  - now rewrite Hfilter.
Qed.

(** ** main.py: the record of a URL *)

Section RecordFacts.
Context `{Builtins} `{PolicySource} `{Pydantic} `{ChatModel} `{Playwright} `{Host}.

(** X17. When the analysis of a URL succeeds and the screenshot comes back
    as a text that is not empty, [process_url] returns the complete
    record: the four fields of the analysis, the screenshot, and no
    error. *)
Theorem process_url_complete_record (url : string) (labels : list string)
    (api_key model_name : string) (analysis : instance) (shot : string)
    (emitted emitted' : warnings) :
  analyze_with_ai url labels api_key model_name = Ok analysis ->
  take_screenshot url (getattr_default Some analysis "xpath" None) emitted
    = (Ok (Some shot), emitted') ->
  shot <> "" ->
  exists v r l x,
    getattr analysis "violated_policy" = Ok v /\
    getattr analysis "reason" = Ok r /\
    getattr analysis "location_of_violation" = Ok l /\
    getattr analysis "xpath" = Ok x /\
    process_url url labels api_key model_name emitted =
      (Ok {| url_ := url;
             violated_policy := v;
             reason := r;
             location_of_violation := l;
             screenshot_base64 := Some shot;
             xpath := Some x;
             error := None |},
       emitted').
Proof.
  intros Hok Hshot Hne. apply truthy_str_nonempty in Hne.
  destruct (analyze_with_ai_ok_inv url labels api_key model_name analysis Hok)
    as (c & text & document & _ & _ & _ & Hval).
  apply model_validate_ok_inv in Hval.
  destruct Hval as (members & v & r & l & x & _ & _ & _ & _ & _ & _ & ->).
  exists v, r, l, x. repeat split.
  unfold process_url, try_except, bind, lift, ret, assign, read, emitting, modify.
  rewrite Hok. cbn. cbn in Hshot. rewrite Hshot. cbn. now rewrite Hne.
Qed.

(** X18. Every record [process_url] returns is for its URL and holds either
    a screenshot or an error message, never both and never neither: a
    screenshot that is a non-empty text with no error, or no screenshot
    with an error.  Its [violated_policy] is "Error" or one of the labels
    of the call, and it is a label whenever there is a screenshot. *)
Theorem process_url_record_invariant (url : string) (labels : list string)
    (api_key model_name : string) (emitted : warnings) :
  exists record emitted',
    process_url url labels api_key model_name emitted = (Ok record, emitted') /\
    url_ record = url /\
    ((exists shot, screenshot_base64 record = Some shot /\ shot <> "" /\
                   error record = None /\ In (violated_policy record) labels) \/
     (screenshot_base64 record = None /\ exists message, error record = Some message)) /\
    (violated_policy record = "Error" \/ In (violated_policy record) labels).
Proof.
  unfold process_url, try_except, bind, lift, ret, assign, read, emitting, modify.
  destruct (analyze_with_ai url labels api_key model_name) as [analysis|e] eqn:Hrun.
  - destruct (analyze_with_ai_ok_inv url labels api_key model_name analysis Hrun)
      as (c & text & document & _ & _ & _ & Hval).
    apply model_validate_ok_inv in Hval.
    destruct Hval as (members & v & r & l & x & _ & _ & Hin & _ & _ & _ & ->).
    cbn.
    destruct (take_screenshot url (Some x) emitted) as [[[shot|]|e] emitted'] eqn:Hshot; cbn.
    + destruct (truthy_str shot) eqn:Htruthy; cbn.
      * eexists _, _. split; [reflexivity|]. cbn. split; [reflexivity|]. split; [|now right].
        left. exists shot. repeat split; try assumption. now apply truthy_str_nonempty.
      * eexists _, _. split; [reflexivity|]. cbn. split; [reflexivity|]. split; [|now right].
        right. split; [reflexivity|]. now eexists.
    + eexists _, _. split; [reflexivity|]. cbn. split; [reflexivity|]. split; [|now right].
      right. split; [reflexivity|]. now eexists.
    + eexists _, _. split; [reflexivity|]. cbn. split; [reflexivity|]. split; [|now left].
      right. split; [reflexivity|]. now eexists.
  - eexists _, _. split; [reflexivity|]. cbn. split; [reflexivity|]. split; [|now left].
    right. split; [reflexivity|]. now eexists.
Qed.

End RecordFacts.

(* ===================================================================== *)
(** * Further runs on the concrete world                                  *)
(* ===================================================================== *)

#[local] Existing Instance char_class.

Lemma extract_necessary_text_section_witness :
  extract_necessary_text alcohol_page = Ok ("Ads for alcohol are restricted." ++ nl) /\
  exists head contents tail,
    alcohol_page =
      head ++ contents_marker ++ contents ++ rule_marker
      ++ ("Ads for alcohol are restricted." ++ nl) ++ tail /\
    (tail = "" \/ exists rest, tail = help_marker ++ rest).
Proof.
  assert (Hok : extract_necessary_text alcohol_page
                = Ok ("Ads for alcohol are restricted." ++ nl)) by reflexivity.
  split; [exact Hok|].
  destruct (extract_necessary_text_section _ _ Hok)
    as (head & contents & tail & Hcut & _ & _ & _ & Htail).
  now exists head, contents, tail.
Defined.

(** A page with the contents marker but no rule after it. *)
Example extract_necessary_text_no_rule :
  extract_necessary_text ("intro" ++ contents_marker ++ "* Overview")
  = Err (IndexError "list index out of range").
Proof. reflexivity. Qed.

Lemma get_policy_markdown_drops_after_failure_witness :
  ~ In "Tobacco" Schema.POLICY_ITEMS /\
  get_policy_markdown (["Alcohol"] ++ "Tobacco" :: ["Alcohol"; "Misrepresentation"])
  = get_policy_markdown ["Alcohol"].
Proof.
  assert (Hout : ~ In "Tobacco" Schema.POLICY_ITEMS).
  { cbn. intuition discriminate. }
  split; [exact Hout|].
  apply (get_policy_markdown_drops_after_failure ["Alcohol"]
           ["Alcohol"; "Misrepresentation"] "Tobacco").
  right. exact Hout.
Defined.

Lemma get_policy_markdown_complete_witness :
  (forall policy, In policy ["Alcohol"; "Alcohol"] -> exists text, describe policy = Ok text) /\
  exists output,
    get_policy_markdown ["Alcohol"; "Alcohol"] = Ok output /\
    exists text, describe "Alcohol" = Ok text /\ dict_get output "Alcohol" = Some text.
Proof.
  assert (Hall : forall policy, In policy ["Alcohol"; "Alcohol"] ->
                   exists text, describe policy = Ok text).
  { intros policy [<-|[<-|[]]]; eexists; reflexivity. }
  split; [exact Hall|].
  destruct (get_policy_markdown_complete ["Alcohol"; "Alcohol"] Hall) as (output & Hrun & Hget).
  exists output. split; [exact Hrun|]. apply Hget. now left.
Defined.

Example output_text_of_skips_earlier_parts :
  output_text_of
    (ContentList [ PartStr "thinking out loud";
                   PartDict [("text", JString "first draft")];
                   PartDict [("type", JString "text"); ("text", JString "final")] ])
  = Ok (JString "final").
Proof. reflexivity. Qed.

Example output_text_of_empty_list :
  output_text_of (ContentList []) = Err (IndexError "list index out of range").
Proof. reflexivity. Qed.

Lemma policy_prompt_holds_entry_witness :
  dict_get [("Alcohol", "Ads for alcohol are restricted.")] "Alcohol"
    = Some "Ads for alcohol are restricted." /\
  exists earlier later,
    policy_prompt_of [("Alcohol", "Ads for alcohol are restricted.")] =
    "<policies_description>" ++ earlier
      ++ descriptions_block "Alcohol" "Ads for alcohol are restricted."
      ++ later ++ "</policies_description>".
Proof.
  split; [reflexivity|].
  apply (policy_prompt_holds_entry [("Alcohol", "Ads for alcohol are restricted.")]).
  reflexivity.
Defined.

Lemma analysis_proceeds_without_descriptions_witness :
  describe "Misrepresentation" = Err (Exception "HTTPSConnectionPool: Read timed out.") /\
  invoke_model site ["Misrepresentation"; "Alcohol"] "key-alcohol" gemini =
  invoke
    {| model := gemini;
       api_key_arg := "key-alcohol";
       response_schema :=
         model_json_schema
           (create_policy_violation_analysis_model ["Misrepresentation"; "Alcohol"]);
       response_mime_type := "application/json";
       thinking_budget := 1024 |}
    (tools_of gemini)
    (system_prompt_of
       (create_policy_violation_analysis_model ["Misrepresentation"; "Alcohol"])
       "<policies_description></policies_description>")
    (user_prompt_of site).
Proof.
  assert (Hfail : describe "Misrepresentation"
                  = Err (Exception "HTTPSConnectionPool: Read timed out."))
    by reflexivity.
  split; [exact Hfail|].
  exact (analysis_proceeds_without_descriptions site "Misrepresentation" ["Alcohol"]
           "key-alcohol" gemini _ Hfail).
Defined.

(** The page is rendered and captured, but the browser cannot be closed. *)
Lemma close_failure_discards_image_witness :
  @open_page playwright_unclosable site = Ok site /\
  @page_screenshot playwright_unclosable site = Ok png /\
  @browser_close playwright_unclosable site
    = Err (Exception "Target page, context or browser has been closed") /\
  fst (@take_xpath_screenshot builtins playwright_unclosable site None []) = Ok None /\
  fst (@take_screenshot builtins playwright_unclosable host site None []) = Ok None.
Proof.
  split; [reflexivity|]. split; [reflexivity|]. split; [reflexivity|].
  apply (@close_failure_discards_image builtins playwright_unclosable host site None site
           (Exception "Target page, context or browser has been closed") []);
    reflexivity.
Defined.

Example parse_urls_run :
  parse_urls ("  https://a.example " ++ nl ++ nl ++ "https://b.example" ++ nl ++ "   ")
  = ["https://a.example"; "https://b.example"].
Proof. reflexivity. Qed.

Lemma parse_urls_clean_witness :
  In "https://a.example" (parse_urls ("  https://a.example " ++ nl ++ "https://b.example")) /\
  strip "https://a.example" = "https://a.example" /\
  contains_char "010"%char "https://a.example" = false.
Proof.
  assert (Hin : In "https://a.example"
                  (parse_urls ("  https://a.example " ++ nl ++ "https://b.example"))).
  { cbn. now left. }
  split; [exact Hin|].
  exact (parse_urls_clean _ _ Hin).
Defined.

Example check_submission_blank_box :
  check_submission "key" ["Alcohol"] (" " ++ nl ++ "  ")
  = Rejected "Please enter at least one URL".
Proof. reflexivity. Qed.

Example check_submission_key_first :
  check_submission "" [] "" = Rejected "Please enter an API key".
Proof. reflexivity. Qed.

Example select_policies_two :
  select_policies (fun policy => String.prefix "A" policy)
  = ["Abusing the ad network"; "Ad protections for children and teens"; "Alcohol"].
Proof. reflexivity. Qed.

Lemma process_url_complete_record_witness :
  analyze_with_ai site ["Alcohol"] "key-alcohol" gemini
    = Ok [ ("violated_policy", "Alcohol");
           ("reason", "The page sells beer to minors. This is restricted.");
           ("location_of_violation", "top banner");
           ("xpath", "/html/body/div[1]") ] /\
  take_screenshot site (Some "/html/body/div[1]") [] = (Ok (Some "iQE="), []) /\
  "iQE=" <> "" /\
  exists v r l x,
    process_url site ["Alcohol"] "key-alcohol" gemini [] =
      (Ok {| url_ := site;
             violated_policy := v;
             reason := r;
             location_of_violation := l;
             screenshot_base64 := Some "iQE=";
             xpath := Some x;
             error := None |},
       []).
Proof.
  assert (Hok : analyze_with_ai site ["Alcohol"] "key-alcohol" gemini
                = Ok [ ("violated_policy", "Alcohol");
                       ("reason", "The page sells beer to minors. This is restricted.");
                       ("location_of_violation", "top banner");
                       ("xpath", "/html/body/div[1]") ]) by reflexivity.
  assert (Hshot : take_screenshot site (Some "/html/body/div[1]") []
                  = (Ok (Some "iQE="), [])) by reflexivity.
  assert (Hne : "iQE=" <> "") by discriminate.
  split; [exact Hok|]. split; [exact Hshot|]. split; [exact Hne|].
  destruct (process_url_complete_record _ _ _ _ _ _ _ _ Hok Hshot Hne)
    as (v & r & l & x & _ & _ & _ & _ & Hrun).
  exists v, r, l, x. exact Hrun.
Defined.

Lemma check_submission_cases_witness :
  "key" <> "" /\ ["Alcohol"] <> [] /\
  all_space (" https://a.example" ++ nl ++ nl ++ "https://b.example ") = false /\
  check_submission "key" ["Alcohol"] (" https://a.example" ++ nl ++ nl ++ "https://b.example ")
  = Accepted ["https://a.example"; "https://b.example"].
Proof.
  assert (Hkey : "key" <> "") by discriminate.
  assert (Hsel : ["Alcohol"] <> []) by discriminate.
  assert (Hbox : all_space (" https://a.example" ++ nl ++ nl ++ "https://b.example ") = false)
    by reflexivity.
  split; [exact Hkey|]. split; [exact Hsel|]. split; [exact Hbox|].
  destruct (check_submission_cases "key" ["Alcohol"]
              (" https://a.example" ++ nl ++ nl ++ "https://b.example "))
    as (_ & _ & _ & Haccept & _).
  destruct (Haccept Hkey Hsel Hbox) as [Hrun _]. exact Hrun.
Defined.

(** The same URL on two lines is taken twice, in the order of the lines. *)
Example parse_urls_repeated_url :
  parse_urls ("https://a.example" ++ nl ++ " https://b.example" ++ nl ++ "https://a.example")
  = ["https://a.example"; "https://b.example"; "https://a.example"].
Proof. reflexivity. Qed.
